(** * aws_snapshot_manager.py: retention policy of the archival snapshots

    A shallow embedding of [src/aws_snapshot_manager.py] and the properties of
    its inventory filter ([get_snapshot_list]), of its retention pass
    ([manage_snapshot_inventory]), of its deletion loop ([delete_snapshots])
    and of the run that leads to them ([start_aws_connection],
    [select_volume], [take_snapshot], [main]).

    Conventions of the embedding:
    - Python strings are [string] (sequences of 8-bit characters); [<=] on
      strings is the lexicographic order on character codes,
      [String.leb].
    - Python integers are [Z].
    - An exception is a value of [exn]; a computation that may raise returns
      [res]; the functions that log or call the provider thread a [World].
    - The wall clock ([datetime.date.today()], [datetime.datetime.today()])
      and the provider's answers to the calls made through [boto] are inputs
      of the embedding. *)

From Stdlib Require Import ZArith List String Ascii Bool Lia Permutation.
Import ListNotations.
Open Scope string_scope.
Open Scope list_scope.
Open Scope Z_scope.

(** ** Exceptions *)

Inductive exn : Type :=
| ValueError      (* raised by [datetime.datetime.strptime] *)
| OverflowError   (* raised by [date - timedelta] below [date.min] *)
| EC2Error.       (* raised by [snapshot.delete()] *)

Inductive res (A : Type) : Type :=
| Ok (a : A)
| Raise (e : exn).
Arguments Ok {A} a.
Arguments Raise {A} e.

Definition bind {A B : Type} (m : res A) (k : A -> res B) : res B :=
  match m with
  | Ok a => k a
  | Raise e => Raise e
  end.

Notation "x <- m ;; k" := (bind m (fun x => k))
  (at level 61, m at next level, right associativity).

(** ** The calendar ([datetime] and [calendar] of the Python library) *)

Module Calendar.

Record date : Type := mkdate { year : Z; month : Z; day : Z }.

Record datetime : Type := mkdatetime {
  dt_date : date;
  hour : Z; minute : Z; second : Z; microsecond : Z
}.

(** [calendar.mdays]: the table the retention pass indexes by month. *)
Definition mdays : list Z := [0; 31; 28; 31; 30; 31; 30; 31; 31; 30; 31; 30; 31].

(** [mdays[i]] for an index inside the table. *)
Definition mdays_at (i : Z) : Z := nth (Z.to_nat i) mdays 0.

(** [datetime._is_leap]. *)
Definition is_leap (y : Z) : bool :=
  (y mod 4 =? 0) && (negb (y mod 100 =? 0) || (y mod 400 =? 0)).

(** [datetime._days_in_month]: the number of days of month [m] of year [y]. *)
Definition days_in_month (y m : Z) : Z :=
  if (m =? 2) && is_leap y then 29 else mdays_at m.

(** The check of the [date] constructor: [MINYEAR <= year <= MAXYEAR],
    [1 <= month <= 12], [1 <= day <= days_in_month]. *)
Definition valid_date (d : date) : bool :=
  (1 <=? year d) && (year d <=? 9999) &&
  (1 <=? month d) && (month d <=? 12) &&
  (1 <=? day d) && (day d <=? days_in_month (year d) (month d)).

(** [datetime._days_before_year], [_days_before_month], [_ymd2ord]:
    the proleptic Gregorian ordinal, 0001-01-01 being day 1. *)
Definition days_before_year (y : Z) : Z :=
  let p := y - 1 in p * 365 + p / 4 - p / 100 + p / 400.

Fixpoint days_before_month_aux (y : Z) (n : nat) : Z :=
  match n with
  | O => 0
  | S k => days_before_month_aux y k + days_in_month y (Z.of_nat (S k))
  end.

Definition days_before_month (y m : Z) : Z :=
  days_before_month_aux y (Z.to_nat (m - 1)).

Definition toordinal (d : date) : Z :=
  days_before_year (year d) + days_before_month (year d) (month d) + day d.

(** The day before [d] in the calendar. *)
Definition prev_day (d : date) : date :=
  if 1 <? day d then mkdate (year d) (month d) (day d - 1)
  else if 1 <? month d
       then mkdate (year d) (month d - 1) (days_in_month (year d) (month d - 1))
       else mkdate (year d - 1) 12 31.

(** [d - datetime.timedelta(days=n)]: [n] days back, [OverflowError] when the
    result would precede [date.min] = 0001-01-01. *)
Fixpoint date_sub_days (d : date) (n : nat) : res date :=
  match n with
  | O => Ok d
  | S k =>
      let p := prev_day d in
      if valid_date p then date_sub_days p k else Raise OverflowError
  end.

(** The order of dates, as Python compares them: year, month, day. *)
Definition date_lt (a b : date) : Prop :=
  year a < year b \/
  (year a = year b /\ (month a < month b \/ (month a = month b /\ day a < day b))).

(** Decimal digits and zero padding ([%02d], [%04d]). *)
Definition digit (n : Z) : ascii := ascii_of_nat (48 + Z.to_nat n).

Definition pad2 (n : Z) : string :=
  String (digit (n / 10 mod 10)) (String (digit (n mod 10)) EmptyString).

Definition pad4 (n : Z) : string :=
  String (digit (n / 1000 mod 10)) (String (digit (n / 100 mod 10)) (pad2 n)).

(** [date.isoformat()]: ["%04d-%02d-%02d"]. *)
Definition isoformat (d : date) : string :=
  (pad4 (year d) ++ "-" ++ pad2 (month d) ++ "-" ++ pad2 (day d))%string.

End Calendar.
Import Calendar.

(** ** [datetime.datetime.strptime(s, '%Y-%m-%dT%H:%M:%S.%fZ')]

    [_strptime] turns the format into the regular expression
    [(\d\d\d\d)-(1[0-2]|0[1-9]|[1-9])-(3[0-1]|[1-2]\d|0[1-9]|[1-9]| [1-9])T
     (2[0-3]|[0-1]\d|\d):([0-5]\d|\d):(6[0-1]|[0-5]\d|\d)\.([0-9]{1,6})Z],
    compiled with IGNORECASE, matches it at the start of the string, refuses
    unconverted data after the match, and builds the [datetime], whose
    constructor checks the ranges. Every failure is a [ValueError].

    Each directive is followed by a literal that none of its alternatives can
    match, so trying the alternatives in order and committing to the first
    one that matches finds the same match as the backtracking matcher. *)

Module Strptime.

Definition parser (A : Type) : Type := string -> option (A * string).

Definition code (c : ascii) : Z := Z.of_nat (nat_of_ascii c).

(** The character class [[lo-hi]]. *)
Definition range (lo hi : ascii) (c : ascii) : bool :=
  (code lo <=? code c) && (code c <=? code hi).

(** The single character [x]. *)
Definition ch (x : ascii) (c : ascii) : bool := Ascii.eqb x c.

Definition is_digit : ascii -> bool := range "0" "9".

Definition digit_val (c : ascii) : Z := code c - 48.

(** Two characters of the given classes, read as a two-digit number. *)
Definition cls2 (p q : ascii -> bool) : parser Z := fun s =>
  match s with
  | String a (String b r) =>
      if p a && q b then Some (10 * digit_val a + digit_val b, r) else None
  | _ => None
  end.

(** One character of the given class, read as a digit. *)
Definition cls1 (p : ascii -> bool) : parser Z := fun s =>
  match s with
  | String a r => if p a then Some (digit_val a, r) else None
  | _ => None
  end.

(** A space and a digit: the alternative [ [1-9]] of [%d]. *)
Definition sp_cls1 (p : ascii -> bool) : parser Z := fun s =>
  match s with
  | String a (String b r) =>
      if ch " " a && p b then Some (digit_val b, r) else None
  | _ => None
  end.

(** Ordered choice [p|q]. *)
Definition orelse {A : Type} (p q : parser A) : parser A := fun s =>
  match p s with
  | Some x => Some x
  | None => q s
  end.
Infix "<|>" := orelse (at level 50, left associativity).

(** [\d\d\d\d] *)
Definition re_Y : parser Z := fun s =>
  match s with
  | String a (String b (String c (String d r))) =>
      if is_digit a && is_digit b && is_digit c && is_digit d
      then Some (1000 * digit_val a + 100 * digit_val b
                 + 10 * digit_val c + digit_val d, r)
      else None
  | _ => None
  end.

(** [1[0-2]|0[1-9]|[1-9]] *)
Definition re_m : parser Z :=
  cls2 (ch "1") (range "0" "2") <|> cls2 (ch "0") (range "1" "9")
  <|> cls1 (range "1" "9").

(** [3[0-1]|[1-2]\d|0[1-9]|[1-9]| [1-9]] *)
Definition re_d : parser Z :=
  cls2 (ch "3") (range "0" "1") <|> cls2 (range "1" "2") is_digit
  <|> cls2 (ch "0") (range "1" "9") <|> cls1 (range "1" "9")
  <|> sp_cls1 (range "1" "9").

(** [2[0-3]|[0-1]\d|\d] *)
Definition re_H : parser Z :=
  cls2 (ch "2") (range "0" "3") <|> cls2 (range "0" "1") is_digit
  <|> cls1 is_digit.

(** [[0-5]\d|\d] *)
Definition re_M : parser Z :=
  cls2 (range "0" "5") is_digit <|> cls1 is_digit.

(** [6[0-1]|[0-5]\d|\d] *)
Definition re_S : parser Z :=
  cls2 (ch "6") (range "0" "1") <|> cls2 (range "0" "5") is_digit
  <|> cls1 is_digit.

(** [[0-9]{1,6}], greedy; the value is the digits padded with zeros on the
    right to six places ([s += "0" * (6 - len(s))]). *)
Fixpoint digits_upto (n : nat) (acc : Z) (s : string) : Z * nat * string :=
  match n with
  | O => (acc, O, s)
  | S k =>
      match s with
      | String a r =>
          if is_digit a then digits_upto k (10 * acc + digit_val a) r
          else (acc, n, s)
      | EmptyString => (acc, n, s)
      end
  end.

Definition re_f : parser Z := fun s =>
  match digits_upto 6 0 s with
  | (v, missing, r) =>
      if (missing =? 6)%nat then None else Some (v * 10 ^ Z.of_nat missing, r)
  end.

(** A literal character of the format; [IGNORECASE] makes a letter match in
    either case. *)
Definition lit (x : ascii) : parser unit := fun s =>
  match s with
  | String a r => if ch x a then Some (tt, r) else None
  | EmptyString => None
  end.

Definition lit_nocase (upper lower : ascii) : parser unit :=
  lit upper <|> lit lower.

Definition pbind {A B : Type} (p : parser A) (k : A -> parser B) : parser B :=
  fun s =>
    match p s with
    | Some (a, r) => k a r
    | None => None
    end.

Notation "x <~ p ;; k" := (pbind p (fun x => k))
  (at level 61, p at next level, right associativity).

Definition pret {A : Type} (a : A) : parser A := fun s => Some (a, s).

(** The compiled format. *)
Definition format_regex : parser (Z * Z * Z * Z * Z * Z * Z) :=
  Y <~ re_Y ;; _ <~ lit "-" ;;
  m <~ re_m ;; _ <~ lit "-" ;;
  d <~ re_d ;; _ <~ lit_nocase "T" "t" ;;
  H <~ re_H ;; _ <~ lit ":" ;;
  Mi <~ re_M ;; _ <~ lit ":" ;;
  Se <~ re_S ;; _ <~ lit "." ;;
  f <~ re_f ;; _ <~ lit_nocase "Z" "z" ;;
  pret (Y, m, d, H, Mi, Se, f).

(** The range checks of the [datetime] constructor that the regular
    expression has not already made. *)
Definition valid_datetime (t : datetime) : bool :=
  valid_date (dt_date t) && (second t <=? 59).

Definition strptime (s : string) : res datetime :=
  match format_regex s with
  | Some ((Y, m, d, H, Mi, Se, f), EmptyString) =>
      let t := mkdatetime (mkdate Y m d) H Mi Se f in
      if valid_datetime t then Ok t else Raise ValueError
  | _ => Raise ValueError
  end.

End Strptime.
Import Strptime.

(** ** Data model *)

(** A snapshot as the provider reports it (the fields of [boto]'s snapshot
    object that the script reads). *)
Record Snapshot : Type := mkSnapshot {
  id : string;
  description : string;
  start_time : string
}.

Definition Snapshot_eq_dec (a b : Snapshot) : {a = b} + {a <> b}.
Proof. repeat decide equality. Defined.

(** The values the retention pass returns. *)
Inductive pyval : Type :=
| PyNone
| PyInt (n : Z).

(** [len]. *)
Definition len {A : Type} (l : list A) : Z := Z.of_nat (List.length l).

(** The lines written by [syslog.syslog], one constructor per call site. *)
Inductive log_entry : Type :=
| DEBUG_snapshots_in_inventory (n : Z)
| ERROR_only_n_snapshots (n : Z)
| DEBUG_not_deleting
| ERROR_negative_number
| INFO_deleting (s : Snapshot)
| ERROR_failed_to_delete (s : Snapshot).

(** What a run changes: the log and the delete calls sent to the provider,
    both oldest first. *)
Record World : Type := mkWorld {
  syslog_lines : list log_entry;
  delete_calls : list Snapshot
}.

Definition empty_world : World := mkWorld [] [].

(** Computations that log, call the provider and may raise. The world
    survives an exception. *)
Definition M (A : Type) : Type := World -> res A * World.

Definition ret {A : Type} (a : A) : M A := fun w => (Ok a, w).

Definition raise {A : Type} (e : exn) : M A := fun w => (Raise e, w).

Definition mbind {A B : Type} (m : M A) (k : A -> M B) : M B := fun w =>
  match m w with
  | (Ok a, w') => k a w'
  | (Raise e, w') => (Raise e, w')
  end.

Notation "x <<- m ;; k" := (mbind m (fun x => k))
  (at level 61, m at next level, right associativity).

Definition lift {A : Type} (r : res A) : M A := fun w => (r, w).

(** [try: body  except: handler] with a bare [except]. *)
Definition try_except {A : Type} (body : M A) (handler : M A) : M A := fun w =>
  match body w with
  | (Ok a, w') => (Ok a, w')
  | (Raise _, w') => handler w'
  end.

Definition syslog (l : log_entry) : M unit := fun w =>
  (Ok tt, mkWorld (syslog_lines w ++ [l]) (delete_calls w)).

Definition when (b : bool) (m : M unit) : M unit := if b then m else ret tt.

(** [debug = True], set by [main]. *)
Definition debug : bool := true.

(** ** [get_snapshot_list] *)

Definition newline : ascii := ascii_of_nat 10.

(** [re.match(pattern, s)] for a pattern made of ordinary characters and
    [.]: the match is anchored at the start of [s]; [.] matches any
    character but a newline. The pattern of [get_snapshot_list] has no other
    special character. *)
Fixpoint re_match (pattern s : string) : bool :=
  match pattern with
  | EmptyString => true
  | String p pattern' =>
      match s with
      | EmptyString => false
      | String c s' =>
          (if ch "." p then negb (ch newline c) else ch p c)
          && re_match pattern' s'
      end
  end.

Definition managed_tag : string := "Created by aws_snapshot_manager.py".

(** [all_snapshots] is the answer of [conn.get_all_snapshots()]. *)
Definition get_snapshot_list (all_snapshots : list Snapshot) : M (list Snapshot) :=
  let description_pattern := managed_tag in
  let archival_snapshot_list :=
    filter (fun i => re_match description_pattern (description i)) all_snapshots in
  _ <<- when debug (syslog (DEBUG_snapshots_in_inventory (len archival_snapshot_list))) ;;
  _ <<- when (len archival_snapshot_list <? 7)
             (syslog (ERROR_only_n_snapshots (len archival_snapshot_list))) ;;
  ret archival_snapshot_list.

(** ** [delete_snapshots] *)

Section Provider.

(** The provider's answer to [snapshot.delete()], given the delete calls
    already made in this run. *)
Variable ec2_delete : list Snapshot -> Snapshot -> res unit.

Definition snapshot_delete (snapshot : Snapshot) : M unit := fun w =>
  (ec2_delete (delete_calls w) snapshot,
   mkWorld (syslog_lines w) (delete_calls w ++ [snapshot])).

(** The function has no [return]: it returns [None]. *)
Fixpoint delete_snapshots (expired_snapshots : list Snapshot) : M pyval :=
  match expired_snapshots with
  | [] => ret PyNone
  | snapshot :: rest =>
      _ <<- syslog (INFO_deleting snapshot) ;;
      _ <<- try_except (snapshot_delete snapshot)
                       (syslog (ERROR_failed_to_delete snapshot)) ;;
      delete_snapshots rest
  end.

(** ** [manage_snapshot_inventory] *)

(** The test of line 101. *)
Definition expire_test (week_delta : date) (snapshot : Snapshot)
    (snapshot_date : date) : bool :=
  (start_time snapshot <=? isoformat week_delta)%string
  && negb (day snapshot_date =? mdays_at (month snapshot_date)).

(** The loop of lines 98-103, [expired_snapshots] being the list built so
    far. *)
Fixpoint retention_loop (week_delta : date) (archival_snapshot_list : list Snapshot)
    (expired_snapshots : list Snapshot) : res (list Snapshot) :=
  match archival_snapshot_list with
  | [] => Ok expired_snapshots
  | snapshot :: rest =>
      snapshot_datetime <- strptime (start_time snapshot) ;;
      let snapshot_date := dt_date snapshot_datetime in
      if expire_test week_delta snapshot snapshot_date
      then retention_loop week_delta rest (expired_snapshots ++ [snapshot])
      else retention_loop week_delta rest expired_snapshots
  end.

(** Lines 93-103: the expire set for the reference date [today]. *)
Definition expired_snapshots_of (today : date)
    (archival_snapshot_list : list Snapshot) : res (list Snapshot) :=
  let last_monthday := mdays_at (month today) in
  week_delta <- date_sub_days today 7 ;;
  retention_loop week_delta archival_snapshot_list [].

(** [today] is the answer of [datetime.date.today()]. *)
Definition manage_snapshot_inventory (today : date)
    (archival_snapshot_list : list Snapshot) : M pyval :=
  expired_snapshots <<- lift (expired_snapshots_of today archival_snapshot_list) ;;
  if len expired_snapshots >? 0 then
    delete_snapshots expired_snapshots
  else if len expired_snapshots =? 0 then
    _ <<- when debug (syslog DEBUG_not_deleting) ;;
    ret (PyInt 0)
  else
    _ <<- syslog ERROR_negative_number ;;
    ret (PyInt 1).

End Provider.

(** ** The retention decision *)

Inductive classification : Type := KEEP | EXPIRE.

(** The partition the retention pass induces on the inventory: the expire set
    it builds, and what it leaves alone. *)
Definition keep_of (inventory expire : list Snapshot) : list Snapshot :=
  filter (fun s => if in_dec Snapshot_eq_dec s expire then false else true) inventory.

Definition decide (today : date) (inventory : list Snapshot)
    : res (list Snapshot * list Snapshot) :=
  expire <- expired_snapshots_of today inventory ;;
  Ok (keep_of inventory expire, expire).

Definition classify (expire : list Snapshot) (s : Snapshot) : classification :=
  if in_dec Snapshot_eq_dec s expire then EXPIRE else KEEP.

(** ** Notions of the specification *)

(** The date is the last calendar day of its month, leap years counted. *)
Definition is_month_end (d : date) : bool :=
  day d =? days_in_month (year d) (month d).

(** The date lies in the closed interval [today-6, today]. *)
Definition in_window (today d : date) : Prop :=
  toordinal today - 6 <= toordinal d <= toordinal today.

(** The layout in which the provider writes the date of [start_time]:
    four, two and two digits separated by [-], followed by [T] and the time
    of day. *)
Definition iso_date_layout (s : string) : bool :=
  match s with
  | String y1 (String y2 (String y3 (String y4 (String h1
    (String m1 (String m2 (String h2
    (String d1 (String d2 (String t _)))))))))) =>
      is_digit y1 && is_digit y2 && is_digit y3 && is_digit y4 && ch "-" h1
      && is_digit m1 && is_digit m2 && ch "-" h2
      && is_digit d1 && is_digit d2 && ch "T" t
  | _ => false
  end.

(** The description begins with the managed tag, character for character. *)
Definition has_managed_prefix (s : Snapshot) : bool :=
  String.prefix managed_tag (description s).

(** A status that reports a failure: an integer other than zero. *)
Definition nonzero_status (r : pyval) : Prop :=
  exists n, r = PyInt n /\ n <> 0.

(** Every timestamp of the inventory is accepted by [strptime]. *)
Definition well_formed (inventory : list Snapshot) : Prop :=
  forall s, In s inventory -> exists t, strptime (start_time s) = Ok t.

(** The entries a deletion pass adds to the log. *)
Definition deletion_entry (l : list Snapshot) (e : log_entry) : Prop :=
  exists s, In s l /\ (e = INFO_deleting s \/ e = ERROR_failed_to_delete s).

(** Whether the loop appends [s], for a timestamp it can read. *)
Definition expires (week_delta : date) (s : Snapshot) : bool :=
  match strptime (start_time s) with
  | Ok t => expire_test week_delta s (dt_date t)
  | Raise _ => false
  end.

(** ** Order-preserving selection *)

(** [l] is [m] with some elements left out, the others in the same order. *)
Inductive subseq {A : Type} : list A -> list A -> Prop :=
| subseq_nil : subseq [] []
| subseq_skip (x : A) (l m : list A) : subseq l m -> subseq l (x :: m)
| subseq_take (x : A) (l m : list A) : subseq l m -> subseq (x :: l) (x :: m).

(** ** The rest of the run: connection, volume, new snapshot and [main] *)

(** [%06d]. *)
Definition pad6 (n : Z) : string :=
  (pad2 (n / 10000) ++ pad2 (n / 100) ++ pad2 n)%string.

(** [datetime.isoformat(sep)]: the date, the separator, the time of day, and
    the microseconds when they are not zero. *)
Definition datetime_isoformat (sep : ascii) (t : datetime) : string :=
  (isoformat (dt_date t)
   ++ String sep (pad2 (hour t) ++ ":" ++ pad2 (minute t) ++ ":" ++ pad2 (second t)
                  ++ (if (microsecond t =? 0)%Z then "" else "." ++ pad6 (microsecond t))))%string.

(** A volume object; [create_snapshot] is the provider's answer to
    [volume.create_snapshot(description)]. *)
Record Volume : Type := mkVolume {
  volume_id : string;
  create_snapshot : string -> res Snapshot
}.

(** A connection object: the provider's answers to the calls made through
    it. An entry [None] of a volume list is Python's [None]. *)
Record Connection : Type := mkConnection {
  get_all_volumes : list string -> res (list (option Volume));
  get_all_snapshots : res (list Snapshot);
  delete : list Snapshot -> Snapshot -> res unit
}.

(** How a run can end other than by returning. *)
Inductive failure : Type :=
| Uncaught (e : exn)     (* an exception of the provider or of the retention pass *)
| UnboundLocalError      (* [return conn] when [conn] was never assigned *)
| IndexError             (* [volume_list[0]] on an empty list *)
| SystemExit (status : Z).

Inductive outcome (A : Type) : Type :=
| Returned (a : A)
| Failed (f : failure).
Arguments Returned {A} a.
Arguments Failed {A} f.

(** The log lines of the whole run, one constructor per call site of
    [syslog.syslog]; [Inventory] wraps the lines of the inventory
    functions. *)
Inductive journal_entry : Type :=
| INFO_starting
| DEBUG_initiated
| ERROR_failed_to_connect
| ERROR_failed_to_locate (volume : string)
| DEBUG_selected (volume : string)
| INFO_created (s : Snapshot)
| ERROR_failed_to_create
| Inventory (l : log_entry).

(** What a run changes: the log, the [create_snapshot] calls (volume and
    description) and the delete calls, all oldest first. *)
Record Process : Type := mkProcess {
  journal : list journal_entry;
  create_calls : list (string * string);
  delete_requests : list Snapshot
}.

Definition empty_process : Process := mkProcess [] [] [].

Definition R (A : Type) : Type := Process -> outcome A * Process.

Definition rret {A : Type} (a : A) : R A := fun p => (Returned a, p).

Definition rfail {A : Type} (f : failure) : R A := fun p => (Failed f, p).

Definition rbind {A B : Type} (m : R A) (k : A -> R B) : R B := fun p =>
  match m p with
  | (Returned a, p') => k a p'
  | (Failed f, p') => (Failed f, p')
  end.

Notation "x <== m ;; k" := (rbind m (fun x => k))
  (at level 61, m at next level, right associativity).

Definition rlog (l : journal_entry) : R unit := fun p =>
  (Returned tt, mkProcess (journal p ++ [l]) (create_calls p) (delete_requests p)).

(** A call to the provider outside any [try]: its exception is not caught. *)
Definition provider {A : Type} (r : res A) : R A := fun p =>
  match r with
  | Ok a => (Returned a, p)
  | Raise e => (Failed (Uncaught e), p)
  end.

(** An inventory function run inside the process: its log lines and delete
    calls are added to those of the process. *)
Definition inventory {A : Type} (m : M A) : R A := fun p =>
  match m (mkWorld [] (delete_requests p)) with
  | (r, w) =>
      (match r with Ok a => Returned a | Raise e => Failed (Uncaught e) end,
       mkProcess (journal p ++ map Inventory (syslog_lines w))
                 (create_calls p) (delete_calls w))
  end.

(** [start_aws_connection]; [connect_ec2] is the answer of
    [boto.connect_ec2()]. When the call raises, the handler logs and the
    [return conn] that follows finds [conn] unassigned. *)
Definition start_aws_connection (connect_ec2 : res Connection) : R Connection :=
  match connect_ec2 with
  | Ok conn =>
      _ <== (if debug then rlog DEBUG_initiated else rret tt) ;;
      rret conn
  | Raise _ =>
      _ <== rlog ERROR_failed_to_connect ;;
      rfail UnboundLocalError
  end.

(** [select_volume]. *)
Definition select_volume (conn : Connection) (volume : string)
    : R (option Volume) :=
  volume_list <== provider (get_all_volumes conn [volume]) ;;
  match volume_list with
  | [] => rfail IndexError
  | selected_volume :: _ =>
      _ <== match selected_volume with
            | None => rlog (ERROR_failed_to_locate volume)
            | Some v => if debug then rlog (DEBUG_selected (volume_id v)) else rret tt
            end ;;
      rret selected_volume
  end.

(** The description [take_snapshot] gives to the snapshot it creates. *)
Definition new_description (now : datetime) : string :=
  ("Created by aws_snapshot_manager.py at " ++ datetime_isoformat " " now)%string.

(** The snapshots that [get_snapshot_list] selects. *)
Definition managed (all_snapshots : list Snapshot) : list Snapshot :=
  filter (fun i => re_match managed_tag (description i)) all_snapshots.

(** [take_snapshot]; [now] is the answer of [datetime.datetime.today()].
    The bare [except] also catches the error of calling [create_snapshot]
    on [None]. *)
Definition take_snapshot (now : datetime) (selected_volume : option Volume)
    : R Snapshot :=
  let snapshot_description := new_description now in
  match selected_volume with
  | None =>
      _ <== rlog ERROR_failed_to_create ;;
      rfail (SystemExit 1)
  | Some v => fun p =>
      let p' := mkProcess (journal p)
                          (create_calls p ++ [(volume_id v, snapshot_description)])
                          (delete_requests p) in
      match create_snapshot v snapshot_description with
      | Ok snapshot_result =>
          (_ <== rlog (INFO_created snapshot_result) ;; rret snapshot_result) p'
      | Raise _ =>
          (_ <== rlog ERROR_failed_to_create ;; rfail (SystemExit 1)) p'
      end
  end.

(** [get_snapshot_list(conn)], with the call to the provider. *)
Definition get_snapshot_list_of (conn : Connection) : R (list Snapshot) :=
  all_snapshots <== provider (get_all_snapshots conn) ;;
  inventory (get_snapshot_list all_snapshots).

(** [main]; [today] is the answer of [datetime.date.today()] in the
    retention pass. *)
Definition main (connect_ec2 : res Connection) (now : datetime) (today : date)
    : R unit :=
  _ <== rlog INFO_starting ;;
  conn <== start_aws_connection connect_ec2 ;;
  selected_volume <== select_volume conn "vol-140bd69d" ;;
  snapshot_result <== take_snapshot now selected_volume ;;
  archival_snapshot_list <== get_snapshot_list_of conn ;;
  result <== inventory (manage_snapshot_inventory (delete conn) today
                          archival_snapshot_list) ;;
  rret tt.

(** A timestamp written with the format of line 99,
    ['%Y-%m-%dT%H:%M:%S.%fZ'], every field padded with zeros. *)
Definition timestamp_of (t : datetime) : string :=
  (isoformat (dt_date t) ++ "T" ++ pad2 (hour t) ++ ":" ++ pad2 (minute t)
   ++ ":" ++ pad2 (second t) ++ "." ++ pad6 (microsecond t) ++ "Z")%string.

(** ** Sample inputs *)

Definition sample_snapshot (name written started : string) : Snapshot :=
  mkSnapshot name
    ("Created by aws_snapshot_manager.py at " ++ written)%string started.

(** A provider that holds one volume and three snapshots, creates snapshots
    on request and accepts every delete call. *)
Definition sample_volume : Volume :=
  mkVolume "vol-140bd69d"
    (fun d => Ok (mkSnapshot "snap-new" d "2024-03-15T02:00:00.000Z")).

Definition sample_snapshots : list Snapshot :=
  [sample_snapshot "snap-old" "2024-03-01 02:00:00" "2024-03-01T02:00:00.000Z";
   sample_snapshot "snap-recent" "2024-03-14 02:00:00" "2024-03-14T02:00:00.000Z";
   mkSnapshot "snap-other" "Other tool snapshot" "2024-02-01T02:00:00.000Z"].

(** The snapshots of [sample_snapshots] that carry the managed tag. *)
Definition sample_inventory : list Snapshot :=
  [sample_snapshot "snap-old" "2024-03-01 02:00:00" "2024-03-01T02:00:00.000Z";
   sample_snapshot "snap-recent" "2024-03-14 02:00:00" "2024-03-14T02:00:00.000Z"].

Definition sample_connection : Connection :=
  mkConnection (fun _ => Ok [Some sample_volume]) (Ok sample_snapshots)
    (fun _ _ => Ok tt).

Definition sample_now : datetime := mkdatetime (mkdate 2024 3 15) 2 0 0 0.

(** * Properties *)

(** ** The embedding on sample inputs *)

Example strptime_provider_layout :
  strptime "2024-02-29T03:00:00.000Z"
  = Ok (mkdatetime (mkdate 2024 2 29) 3 0 0 0).
Proof. reflexivity. Qed.

Example strptime_short_fields :
  strptime "2024-2-29T1:2:3.5z"
  = Ok (mkdatetime (mkdate 2024 2 29) 1 2 3 500000).
Proof. reflexivity. Qed.

Example strptime_space_day :
  strptime "2024-10- 9T00:00:00.000Z"
  = Ok (mkdatetime (mkdate 2024 10 9) 0 0 0 0).
Proof. reflexivity. Qed.

Example strptime_rejects :
  strptime "2023-02-29T01:02:03.000Z" = Raise ValueError /\
  strptime "2024-02-29T01:02:60.000Z" = Raise ValueError /\
  strptime "0000-01-01T00:00:00.0Z" = Raise ValueError /\
  strptime "2024-02-29T01:02:03.0000000Z" = Raise ValueError /\
  strptime "2024-02-29T01:02:03.000Z " = Raise ValueError /\
  strptime "2024-02-29T01:02:03Z" = Raise ValueError.
Proof. repeat split; reflexivity. Qed.

Example isoformat_example : isoformat (mkdate 2024 3 8) = "2024-03-08".
Proof. reflexivity. Qed.

(** ** Calendar arithmetic *)

Lemma valid_date_fields (d : date) :
  valid_date d = true ->
  1 <= year d <= 9999 /\ 1 <= month d <= 12 /\
  1 <= day d <= days_in_month (year d) (month d).
Proof.
  unfold valid_date. rewrite !andb_true_iff, !Z.leb_le. tauto.
Qed.

Lemma month_cases (m : Z) :
  1 <= m <= 12 ->
  m = 1 \/ m = 2 \/ m = 3 \/ m = 4 \/ m = 5 \/ m = 6 \/
  m = 7 \/ m = 8 \/ m = 9 \/ m = 10 \/ m = 11 \/ m = 12.
Proof. lia. Qed.

Ltac each_month H :=
  apply month_cases in H;
  repeat (destruct H as [H | H]); subst.

Ltac calendar_calc y :=
  unfold days_before_month, days_in_month, mdays_at, mdays; simpl;
  unfold days_in_month, mdays_at, mdays; simpl;
  destruct (is_leap y); simpl; lia.

Lemma days_in_month_bounds (y m : Z) :
  1 <= m <= 12 -> 28 <= days_in_month y m <= 31.
Proof.
  intros H. each_month H; calendar_calc y.
Qed.

Lemma days_before_month_succ (y m : Z) :
  1 <= m <= 11 ->
  days_before_month y (m + 1) = days_before_month y m + days_in_month y m.
Proof.
  intros H. unfold days_before_month.
  replace (m + 1 - 1) with (Z.succ (m - 1)) by lia.
  rewrite Z2Nat.inj_succ by lia. cbn [days_before_month_aux].
  rewrite Nat2Z.inj_succ, Z2Nat.id by lia. do 2 f_equal. lia.
Qed.

Lemma days_before_month_mono (y m n : Z) :
  1 <= m -> m < n -> n <= 12 ->
  days_before_month y m + days_in_month y m <= days_before_month y n.
Proof.
  intros Hm Hlt Hn.
  assert (Hm' : 1 <= m <= 12) by lia. assert (Hn' : 1 <= n <= 12) by lia.
  each_month Hm'; each_month Hn'; try lia; calendar_calc y.
Qed.

Lemma days_before_year_succ (y : Z) :
  days_before_year (y + 1) = days_before_year y + 365 + (if is_leap y then 1 else 0).
Proof.
  unfold days_before_year, is_leap. cbv zeta.
  replace (y + 1 - 1) with y by lia.
  destruct (y mod 4 =? 0) eqn:E4; destruct (y mod 100 =? 0) eqn:E100;
    destruct (y mod 400 =? 0) eqn:E400; cbn [andb orb negb];
    rewrite ?Z.eqb_eq, ?Z.eqb_neq in *;
    Z.div_mod_to_equations; lia.
Qed.

Lemma days_before_year_mono (y z : Z) :
  y <= z -> days_before_year y <= days_before_year z.
Proof.
  unfold days_before_year. cbv zeta. intros H. Z.div_mod_to_equations. lia.
Qed.

Lemma year_length (y : Z) :
  days_before_month y 12 + 31 = 365 + (if is_leap y then 1 else 0).
Proof.
  calendar_calc y.
Qed.

Lemma days_before_month_nonneg (y m : Z) :
  1 <= m <= 12 -> 0 <= days_before_month y m.
Proof. intros H. each_month H; calendar_calc y. Qed.

Lemma toordinal_in_year (d : date) :
  valid_date d = true ->
  days_before_year (year d) < toordinal d <= days_before_year (year d + 1).
Proof.
  intros V. apply valid_date_fields in V. destruct V as (_ & Hm & Hd).
  unfold toordinal. rewrite days_before_year_succ.
  pose proof (year_length (year d)) as Hlen.
  pose proof (days_before_month_nonneg (year d) (month d) Hm).
  destruct (Z.eq_dec (month d) 12) as [E | E].
  - rewrite E in *. unfold days_in_month, mdays_at, mdays in Hd. simpl in Hd. lia.
  - pose proof (days_before_month_mono (year d) (month d) 12). lia.
Qed.

Lemma toordinal_mono (a b : date) :
  valid_date a = true -> valid_date b = true ->
  date_lt a b -> toordinal a < toordinal b.
Proof.
  intros Va Vb L.
  pose proof (toordinal_in_year a Va) as Ia.
  pose proof (toordinal_in_year b Vb) as Ib.
  apply valid_date_fields in Va, Vb.
  destruct L as [Ly | (Ey & [Lm | (Em & Ld)])].
  - pose proof (days_before_year_mono (year a + 1) (year b)). lia.
  - unfold toordinal. rewrite Ey.
    pose proof (days_before_month_mono (year b) (month a) (month b)).
    rewrite Ey in Va. lia.
  - unfold toordinal. rewrite Ey, Em. lia.
Qed.

Lemma date_lt_total (a b : date) : date_lt a b \/ a = b \/ date_lt b a.
Proof.
  destruct a as [ya ma da], b as [yb mb db]. unfold date_lt. simpl.
  destruct (Z.lt_trichotomy ya yb) as [? | [? | ?]];
    [left; lia | | right; right; lia].
  destruct (Z.lt_trichotomy ma mb) as [? | [? | ?]];
    [left; lia | | right; right; lia].
  destruct (Z.lt_trichotomy da db) as [? | [? | ?]];
    [left; lia | | right; right; lia].
  subst. right; left; reflexivity.
Qed.

Lemma toordinal_lt_date_lt (a b : date) :
  valid_date a = true -> valid_date b = true ->
  toordinal a < toordinal b -> date_lt a b.
Proof.
  intros Va Vb L.
  destruct (date_lt_total a b) as [? | [E | G]]; trivial.
  - subst. lia.
  - pose proof (toordinal_mono b a Vb Va G). lia.
Qed.

Lemma toordinal_prev_day (d : date) :
  valid_date d = true -> toordinal (prev_day d) = toordinal d - 1.
Proof.
  intros V. apply valid_date_fields in V. destruct V as (_ & Hm & Hd).
  unfold prev_day.
  destruct (1 <? day d) eqn:E1; [unfold toordinal; simpl; lia |].
  apply Z.ltb_ge in E1.
  destruct (1 <? month d) eqn:E2.
  - apply Z.ltb_lt in E2. unfold toordinal. simpl.
    pose proof (days_before_month_succ (year d) (month d - 1)).
    replace (month d - 1 + 1) with (month d) in * by lia. lia.
  - apply Z.ltb_ge in E2. unfold toordinal. simpl.
    replace (month d) with 1 by lia.
    pose proof (days_before_year_succ (year d - 1)) as S.
    replace (year d - 1 + 1) with (year d) in S by lia.
    pose proof (year_length (year d - 1)).
    replace (days_before_month (year d) 1) with 0 by reflexivity. lia.
Qed.

Lemma date_sub_days_spec (n : nat) : forall d c,
  valid_date d = true -> date_sub_days d n = Ok c ->
  valid_date c = true /\ toordinal c = toordinal d - Z.of_nat n.
Proof.
  induction n as [| k IH]; intros d c V H; simpl in H.
  - inversion H; subst. split; [assumption | lia].
  - destruct (valid_date (prev_day d)) eqn:Vp; [| discriminate].
    destruct (IH _ _ Vp H) as (Vc & Oc). split; [assumption |].
    rewrite Oc, toordinal_prev_day by assumption. lia.
Qed.

Lemma toordinal_first : forall d, valid_date d = true -> 1 <= toordinal d.
Proof.
  intros d V. pose proof (toordinal_in_year d V).
  apply valid_date_fields in V.
  pose proof (days_before_year_mono 1 (year d)).
  replace (days_before_year 1) with 0 in * by reflexivity. lia.
Qed.

Lemma prev_day_valid (d : date) :
  valid_date d = true -> 1 < toordinal d -> valid_date (prev_day d) = true.
Proof.
  intros V O. pose proof (valid_date_fields d V) as (Hy & Hm & Hd).
  unfold prev_day.
  destruct (1 <? day d) eqn:E1.
  - apply Z.ltb_lt in E1. unfold valid_date. simpl.
    rewrite !andb_true_iff, !Z.leb_le. lia.
  - apply Z.ltb_ge in E1. destruct (1 <? month d) eqn:E2.
    + apply Z.ltb_lt in E2. unfold valid_date. simpl.
      pose proof (days_in_month_bounds (year d) (month d - 1)).
      rewrite !andb_true_iff, !Z.leb_le. lia.
    + apply Z.ltb_ge in E2. unfold valid_date. simpl.
      assert (year d <> 1).
      { intros E. unfold toordinal in O. rewrite E in O.
        replace (month d) with 1 in O by lia.
        replace (days_before_year 1) with 0 in O by reflexivity.
        replace (days_before_month 1 1) with 0 in O by reflexivity. lia. }
      rewrite !andb_true_iff, !Z.leb_le.
      unfold days_in_month, mdays_at, mdays. simpl. lia.
Qed.

Lemma date_sub_days_total (n : nat) : forall d,
  valid_date d = true -> Z.of_nat n < toordinal d ->
  exists c, date_sub_days d n = Ok c.
Proof.
  induction n as [| k IH]; intros d V O; simpl.
  - eauto.
  - rewrite prev_day_valid by (trivial; lia).
    apply IH; [apply prev_day_valid; trivial; lia |].
    rewrite toordinal_prev_day by assumption. lia.
Qed.

(** *** The order of strings *)

Lemma compare_refl (s : string) : (s ?= s)%string = Eq.
Proof.
  induction s as [| c s IH]; simpl; trivial.
  replace (Ascii.compare c c) with Eq; trivial.
  symmetry. unfold Ascii.compare. apply N.compare_refl.
Qed.

Lemma compare_app_longer (a x : string) (c : ascii) :
  ((a ++ String c x) ?= a)%string = Gt.
Proof.
  induction a as [| k a IH]; simpl; trivial.
  replace (Ascii.compare k k) with Eq; trivial.
  symmetry. unfold Ascii.compare. apply N.compare_refl.
Qed.

Lemma compare_app_decided (a b x y : string) :
  String.length a = String.length b ->
  (a ?= b)%string <> Eq ->
  ((a ++ x) ?= (b ++ y))%string = (a ?= b)%string.
Proof.
  revert b. induction a as [| k a IH]; intros [| l b] L N; simpl in *;
    try discriminate; try congruence.
  destruct (Ascii.compare k l); trivial.
  apply IH; [congruence | assumption].
Qed.

Lemma digit_cases (c : ascii) :
  is_digit c = true ->
  In c ["0"; "1"; "2"; "3"; "4"; "5"; "6"; "7"; "8"; "9"]%char.
Proof.
  destruct c as [[] [] [] [] [] [] [] []]; intros H; vm_compute in H;
    try discriminate H; simpl; tauto.
Qed.

Ltac each_digit H :=
  apply digit_cases in H; simpl in H;
  repeat (destruct H as [H | H]); [subst .. | contradiction].

Lemma digit_val_digit (c : ascii) :
  is_digit c = true -> 0 <= digit_val c <= 9 /\ digit (digit_val c) = c.
Proof.
  intros H. each_digit H; (split; [vm_compute; split; discriminate | reflexivity]).
Qed.

Lemma compare_digit (a b : Z) :
  0 <= a <= 9 -> 0 <= b <= 9 ->
  Ascii.compare (digit a) (digit b) = (a ?= b).
Proof.
  intros Ha Hb.
  assert (Ea : a = 0 \/ a = 1 \/ a = 2 \/ a = 3 \/ a = 4 \/ a = 5 \/ a = 6
               \/ a = 7 \/ a = 8 \/ a = 9) by lia.
  assert (Eb : b = 0 \/ b = 1 \/ b = 2 \/ b = 3 \/ b = 4 \/ b = 5 \/ b = 6
               \/ b = 7 \/ b = 8 \/ b = 9) by lia.
  repeat (destruct Ea as [Ea | Ea]); repeat (destruct Eb as [Eb | Eb]);
    subst; reflexivity.
Qed.


Lemma compare_app_same (p x y : string) :
  ((p ++ x) ?= (p ++ y))%string = (x ?= y)%string.
Proof.
  induction p as [| k p IH]; simpl; trivial.
  replace (Ascii.compare k k) with Eq; trivial.
  symmetry. unfold Ascii.compare. apply N.compare_refl.
Qed.

Lemma compare_cons (a b : ascii) (x y : string) :
  (String a x ?= String b y)%string =
  match Ascii.compare a b with Eq => (x ?= y)%string | r => r end.
Proof. simpl. destruct (Ascii.compare a b); reflexivity. Qed.

Lemma two_digits (a : Z) :
  0 <= a <= 99 ->
  0 <= a / 10 mod 10 <= 9 /\ 0 <= a mod 10 <= 9 /\
  a = 10 * (a / 10 mod 10) + a mod 10.
Proof. intros H. Z.div_mod_to_equations. lia. Qed.

Lemma pad2_compare (a b : Z) :
  0 <= a <= 99 -> 0 <= b <= 99 -> (pad2 a ?= pad2 b)%string = (a ?= b).
Proof.
  intros Ha Hb. unfold pad2.
  destruct (two_digits a Ha) as (Ta & Ua & Da).
  destruct (two_digits b Hb) as (Tb & Ub & Db).
  generalize dependent (a / 10 mod 10). generalize dependent (a mod 10).
  generalize dependent (b / 10 mod 10). generalize dependent (b mod 10).
  intros ub Ub tb Tb Db ua Ua ta Ta Da.
  rewrite !compare_cons, !compare_digit by assumption.
  change (EmptyString ?= EmptyString)%string with Eq.
  destruct (Z.compare_spec ta tb); destruct (Z.compare_spec ua ub);
    symmetry; first [apply Z.compare_eq_iff | apply Z.compare_lt_iff
                    | apply Z.compare_gt_iff]; lia.
Qed.

Lemma four_digits (a : Z) :
  0 <= a <= 9999 ->
  0 <= a / 1000 mod 10 <= 9 /\ 0 <= a / 100 mod 10 <= 9 /\
  0 <= a / 10 mod 10 <= 9 /\ 0 <= a mod 10 <= 9 /\
  a = 1000 * (a / 1000 mod 10) + 100 * (a / 100 mod 10)
      + 10 * (a / 10 mod 10) + a mod 10.
Proof. intros H. Z.div_mod_to_equations. lia. Qed.

Lemma pad4_compare (a b : Z) :
  0 <= a <= 9999 -> 0 <= b <= 9999 -> (pad4 a ?= pad4 b)%string = (a ?= b).
Proof.
  intros Ha Hb. unfold pad4, pad2.
  destruct (four_digits a Ha) as (A3 & A2 & A1 & A0 & Da).
  destruct (four_digits b Hb) as (B3 & B2 & B1 & B0 & Db).
  generalize dependent (a / 1000 mod 10). generalize dependent (a / 100 mod 10).
  generalize dependent (a / 10 mod 10). generalize dependent (a mod 10).
  generalize dependent (b / 1000 mod 10). generalize dependent (b / 100 mod 10).
  generalize dependent (b / 10 mod 10). generalize dependent (b mod 10).
  intros b0 B0 b1 B1 b2 B2 b3 B3 Db a0 A0 a1 A1 a2 A2 a3 A3 Da.
  rewrite !compare_cons, !compare_digit by assumption.
  change (EmptyString ?= EmptyString)%string with Eq.
  destruct (Z.compare_spec a3 b3); destruct (Z.compare_spec a2 b2);
    destruct (Z.compare_spec a1 b1); destruct (Z.compare_spec a0 b0);
    symmetry; first [apply Z.compare_eq_iff | apply Z.compare_lt_iff
                    | apply Z.compare_gt_iff]; lia.
Qed.

Lemma pad2_length (a : Z) : String.length (pad2 a) = 2%nat.
Proof. reflexivity. Qed.

Lemma pad4_length (a : Z) : String.length (pad4 a) = 4%nat.
Proof. reflexivity. Qed.

Lemma isoformat_length (d : date) : String.length (isoformat d) = 10%nat.
Proof. reflexivity. Qed.

Lemma append_empty (s : string) : (s ++ "")%string = s.
Proof. induction s as [| c s IH]; simpl; congruence. Qed.

Lemma isoformat_mono (a b : date) :
  valid_date a = true -> valid_date b = true ->
  date_lt a b -> (isoformat a ?= isoformat b)%string = Lt.
Proof.
  intros Va Vb L.
  apply valid_date_fields in Va, Vb.
  destruct Va as (Ya & Ma & Da), Vb as (Yb & Mb & Db).
  pose proof (days_in_month_bounds (year a) (month a) Ma).
  pose proof (days_in_month_bounds (year b) (month b) Mb).
  unfold isoformat.
  destruct L as [Ly | (Ey & [Lm | (Em & Ld)])].
  - rewrite compare_app_decided; rewrite ?pad4_compare by lia.
    + apply Z.compare_lt_iff; assumption.
    + rewrite !pad4_length; reflexivity.
    + intros E. apply Z.compare_eq_iff in E. lia.
  - rewrite Ey, !compare_app_same.
    rewrite compare_app_decided; rewrite ?pad2_compare by lia.
    + apply Z.compare_lt_iff; assumption.
    + rewrite !pad2_length; reflexivity.
    + intros E. apply Z.compare_eq_iff in E. lia.
  - rewrite Ey, Em, !compare_app_same.
    rewrite pad2_compare by lia. apply Z.compare_lt_iff; assumption.
Qed.

(** How a timestamp written as the ISO date of [d] followed by a time of day
    compares with the ISO date of [c]. *)
Lemma timestamp_after (c d : date) (k : ascii) (rest : string) :
  valid_date c = true -> valid_date d = true ->
  date_lt c d ->
  ((isoformat d ++ String k rest) <=? isoformat c)%string = false.
Proof.
  intros Vc Vd L. unfold String.leb.
  pose proof (isoformat_mono c d Vc Vd L) as C.
  rewrite String.compare_antisym in C.
  rewrite <- (append_empty (isoformat c)) at 1.
  rewrite compare_app_decided.
  - destruct (isoformat d ?= isoformat c)%string; try discriminate; reflexivity.
  - rewrite !isoformat_length; reflexivity.
  - intros E. rewrite E in C. discriminate.
Qed.

Lemma timestamp_same_day (c : date) (k : ascii) (rest : string) :
  ((isoformat c ++ String k rest) <=? isoformat c)%string = false.
Proof. unfold String.leb. rewrite compare_app_longer. reflexivity. Qed.

Lemma timestamp_before (c d : date) (k : ascii) (rest : string) :
  valid_date c = true -> valid_date d = true ->
  date_lt d c ->
  ((isoformat d ++ String k rest) <=? isoformat c)%string = true.
Proof.
  intros Vc Vd L. unfold String.leb.
  rewrite <- (append_empty (isoformat c)) at 1.
  rewrite compare_app_decided.
  - rewrite (isoformat_mono d c Vd Vc L). reflexivity.
  - rewrite !isoformat_length; reflexivity.
  - rewrite (isoformat_mono d c Vd Vc L). discriminate.
Qed.

(** ** Timestamps in the provider's layout *)

Lemma pad4_digits (z3 z2 z1 z0 : Z) :
  0 <= z3 <= 9 -> 0 <= z2 <= 9 -> 0 <= z1 <= 9 -> 0 <= z0 <= 9 ->
  pad4 (1000 * z3 + 100 * z2 + 10 * z1 + z0)
  = String (digit z3) (String (digit z2) (String (digit z1)
      (String (digit z0) EmptyString))).
Proof.
  intros B3 B2 B1 B0. unfold pad4, pad2.
  repeat f_equal; Z.div_mod_to_equations; lia.
Qed.

Lemma re_Y_digits (a b c d : ascii) (r : string) :
  is_digit a = true -> is_digit b = true ->
  is_digit c = true -> is_digit d = true ->
  exists v,
    re_Y (String a (String b (String c (String d r)))) = Some (v, r) /\
    pad4 v = String a (String b (String c (String d EmptyString))).
Proof.
  intros Ha Hb Hc Hd. unfold re_Y. rewrite Ha, Hb, Hc, Hd.
  eexists; split; [reflexivity |].
  destruct (digit_val_digit a Ha) as (Ba & Ea).
  destruct (digit_val_digit b Hb) as (Bb & Eb).
  destruct (digit_val_digit c Hc) as (Bc & Ec).
  destruct (digit_val_digit d Hd) as (Bd & Ed).
  rewrite pad4_digits by assumption. rewrite Ea, Eb, Ec, Ed. reflexivity.
Qed.

Lemma re_m_two_digits (a b : ascii) (r r' : string) (v : Z) :
  is_digit a = true -> is_digit b = true ->
  re_m (String a (String b r)) = Some (v, r') ->
  (r' = r /\ pad2 v = String a (String b EmptyString)) \/ r' = String b r.
Proof.
  intros Ha Hb H. each_digit Ha; each_digit Hb; vm_compute in H;
    inversion H; subst; auto.
Qed.

Lemma re_d_two_digits (a b : ascii) (r r' : string) (v : Z) :
  is_digit a = true -> is_digit b = true ->
  re_d (String a (String b r)) = Some (v, r') ->
  (r' = r /\ pad2 v = String a (String b EmptyString)) \/ r' = String b r.
Proof.
  intros Ha Hb H. each_digit Ha; each_digit Hb; vm_compute in H;
    inversion H; subst; auto.
Qed.

Lemma lit_digit (x : ascii) (c : ascii) (r : string) :
  is_digit x = false -> is_digit c = true -> lit x (String c r) = None.
Proof.
  intros Hx Hc. unfold lit, ch.
  destruct (Ascii.eqb x c) eqn:E; trivial.
  apply Ascii.eqb_eq in E. congruence.
Qed.

Lemma lit_nocase_digit (u l c : ascii) (r : string) :
  is_digit u = false -> is_digit l = false -> is_digit c = true ->
  lit_nocase u l (String c r) = None.
Proof.
  intros Hu Hl Hc. unfold lit_nocase, orelse.
  rewrite !lit_digit by assumption. reflexivity.
Qed.

(** The date fields that [format_regex] reads off a timestamp in the
    provider's layout are the ones written in it. *)
Lemma format_regex_layout (s : string) Y m d H Mi Se f rest :
  iso_date_layout s = true ->
  format_regex s = Some ((Y, m, d, H, Mi, Se, f), rest) ->
  exists tail, s = (isoformat (mkdate Y m d) ++ String "T" tail)%string.
Proof.
  intros L P.
  destruct s as [| y1 [| y2 [| y3 [| y4 [| h1 [| m1 [| m2 [| h2 [| d1 [| d2
    [| t tail]]]]]]]]]]]; try discriminate L.
  unfold iso_date_layout in L. rewrite !andb_true_iff in L.
  destruct L as ((((((((((Y1 & Y2) & Y3) & Y4) & H1) & M1) & M2) & H2) & D1) & D2) & T).
  apply Ascii.eqb_eq in H1, H2, T. subst h1 h2 t.
  exists tail.
  destruct (re_Y_digits y1 y2 y3 y4
              (String "-" (String m1 (String m2 (String "-"
                (String d1 (String d2 (String "T" tail)))))))
              Y1 Y2 Y3 Y4) as (vy & Ey & Py).
  unfold format_regex, pbind in P. rewrite Ey in P.
  cbn [lit ch Ascii.eqb Bool.eqb] in P.
  destruct (re_m _) as [[vm rm] |] eqn:Em in P; [| discriminate P].
  apply re_m_two_digits in Em; trivial.
  destruct Em as [(-> & Pm) | ->];
    [| rewrite lit_digit in P by (trivial; reflexivity); discriminate P].
  cbn [lit ch Ascii.eqb Bool.eqb] in P.
  destruct (re_d _) as [[vd rd] |] eqn:Ed in P; [| discriminate P].
  apply re_d_two_digits in Ed; trivial.
  destruct Ed as [(-> & Pd) | ->];
    [| rewrite lit_nocase_digit in P by (trivial; reflexivity); discriminate P].
  assert (E : Y = vy /\ m = vm /\ d = vd).
  { repeat match type of P with
           | match ?x with _ => _ end = _ => destruct x as [[? ?] |]; [| discriminate P]
           end.
    unfold pret in P. inversion P; subst; auto. }
  destruct E as (-> & -> & ->).
  unfold isoformat. cbn [year month day]. rewrite Py, Pm, Pd. reflexivity.
Qed.

(** *** [strptime] *)

Lemma strptime_raises (s : string) (e : exn) :
  strptime s = Raise e -> e = ValueError.
Proof.
  unfold strptime.
  destruct (format_regex s) as [[[[[[[[Y m] d] H] Mi] Se] f] [| c r]] |];
    try (intros E; inversion E; reflexivity).
  destruct (valid_datetime _); intros E; inversion E; reflexivity.
Qed.

Lemma strptime_valid (s : string) (t : datetime) :
  strptime s = Ok t -> valid_date (dt_date t) = true.
Proof.
  unfold strptime.
  destruct (format_regex s) as [[[[[[[[Y m] d] H] Mi] Se] f] [| c r]] |];
    try discriminate.
  destruct (valid_datetime _) eqn:V; [| discriminate].
  intros E; inversion E; subst. unfold valid_datetime in V.
  apply andb_true_iff in V. apply V.
Qed.

Lemma strptime_layout (s : string) (t : datetime) :
  iso_date_layout s = true -> strptime s = Ok t ->
  exists tail, s = (isoformat (dt_date t) ++ String "T" tail)%string.
Proof.
  intros L. unfold strptime.
  destruct (format_regex s) as [[[[[[[[Y m] d] H] Mi] Se] f] [| c r]] |] eqn:P;
    try discriminate.
  destruct (valid_datetime _); [| discriminate].
  intros E; inversion E; subst. cbn [dt_date].
  eapply format_regex_layout; eassumption.
Qed.

(** *** The retention loop *)

Lemma retention_loop_ok (week_delta : date) (l : list Snapshot) :
  well_formed l ->
  forall acc,
    retention_loop week_delta l acc = Ok (acc ++ filter (expires week_delta) l).
Proof.
  induction l as [| s l IH]; intros W acc; simpl.
  - rewrite app_nil_r. reflexivity.
  - destruct (W s (or_introl eq_refl)) as (t & Et).
    unfold expires at 1. rewrite Et. cbn [bind].
    assert (W' : well_formed l) by (intros x Hx; apply W; right; exact Hx).
    destruct (expire_test week_delta s (dt_date t)).
    + rewrite IH by assumption. rewrite <- app_assoc. reflexivity.
    + apply IH; assumption.
Qed.

Lemma retention_loop_raise (week_delta : date) (l : list Snapshot) :
  (exists s e, In s l /\ strptime (start_time s) = Raise e) ->
  forall acc, retention_loop week_delta l acc = Raise ValueError.
Proof.
  induction l as [| x l IH]; intros (s & e & Hin & Hs) acc.
  - destruct Hin.
  - simpl. destruct (strptime (start_time x)) as [t | e'] eqn:Ex; cbn [bind].
    + assert (Hl : exists s e, In s l /\ strptime (start_time s) = Raise e).
      { destruct Hin as [-> | Hin]; [congruence | eauto]. }
      destruct (expire_test _ _ _); apply IH; assumption.
    + apply strptime_raises in Ex. subst. reflexivity.
Qed.

Lemma well_formed_dec (l : list Snapshot) :
  well_formed l \/ exists s e, In s l /\ strptime (start_time s) = Raise e.
Proof.
  induction l as [| x l [W | (s & e & Hin & Hs)]].
  - left. intros s [].
  - destruct (strptime (start_time x)) as [t | e] eqn:Ex.
    + left. intros s [<- | Hs]; eauto.
    + right. exists x, e. split; [left; reflexivity | assumption].
  - right. exists s, e. split; [right |]; assumption.
Qed.

Lemma retention_loop_inv (week_delta : date) (l acc e : list Snapshot) :
  retention_loop week_delta l acc = Ok e ->
  well_formed l /\ e = acc ++ filter (expires week_delta) l.
Proof.
  intros H. destruct (well_formed_dec l) as [W | R].
  - split; trivial. rewrite retention_loop_ok in H by assumption. congruence.
  - rewrite retention_loop_raise in H by assumption. discriminate.
Qed.

Lemma expired_snapshots_of_inv (today : date) (inventory expire : list Snapshot) :
  expired_snapshots_of today inventory = Ok expire ->
  exists week_delta,
    date_sub_days today 7 = Ok week_delta /\ well_formed inventory /\
    expire = filter (expires week_delta) inventory.
Proof.
  unfold expired_snapshots_of.
  destruct (date_sub_days today 7) as [wd | e]; [| discriminate].
  cbn [bind]. intros H. apply retention_loop_inv in H.
  exists wd. tauto.
Qed.

Lemma expired_snapshots_of_ok (today wd : date) (inventory : list Snapshot) :
  date_sub_days today 7 = Ok wd -> well_formed inventory ->
  expired_snapshots_of today inventory = Ok (filter (expires wd) inventory).
Proof.
  intros D W. unfold expired_snapshots_of. rewrite D. cbn [bind].
  rewrite retention_loop_ok by assumption. reflexivity.
Qed.

Lemma in_expire_iff (today : date) (inventory expire : list Snapshot) (s : Snapshot) :
  expired_snapshots_of today inventory = Ok expire ->
  In s expire <->
  In s inventory /\
  exists wd t, date_sub_days today 7 = Ok wd /\ strptime (start_time s) = Ok t /\
               expire_test wd s (dt_date t) = true.
Proof.
  intros H. apply expired_snapshots_of_inv in H. destruct H as (wd & D & W & ->).
  rewrite filter_In. split.
  - intros (Hin & E). split; trivial. destruct (W s Hin) as (t & Et).
    exists wd, t. unfold expires in E. rewrite Et in E. auto.
  - intros (Hin & wd' & t & D' & Et & E). split; trivial.
    unfold expires. rewrite Et. congruence.
Qed.

(** ** The retention rule (claims C1, C2, C3) *)

(** C1. The claim: a snapshot is put in the expire set exactly when its
    [start_time] is at most the ISO date of the cutoff and its date is not
    the last calendar day of its own month. The code tests the day against
    [calendar.mdays], which gives February 28 days in every year. With the
    reference date 2024-03-15 (cutoff 2024-03-08), the snapshot of the leap
    day 2024-02-29, the last day of its month, is expired, and the snapshot
    of 2024-02-28, which is older than the cutoff and not the last day of its
    month, is kept. *)
Theorem retention_rule_fails_in_leap_february :
  let leap_day := mkSnapshot "snap-1" "Created by aws_snapshot_manager.py at 2024-02-29 03:00:00"
                    "2024-02-29T03:00:00.000Z" in
  let day_before := mkSnapshot "snap-2" "Created by aws_snapshot_manager.py at 2024-02-28 03:00:00"
                    "2024-02-28T03:00:00.000Z" in
  let cutoff := mkdate 2024 3 8 in
  date_sub_days (mkdate 2024 3 15) 7 = Ok cutoff /\
  expired_snapshots_of (mkdate 2024 3 15) [leap_day; day_before] = Ok [leap_day] /\
  (* the claim would keep [leap_day] *)
  (start_time leap_day <=? isoformat cutoff)%string = true /\
  is_month_end (mkdate 2024 2 29) = true /\
  (* the claim would expire [day_before] *)
  (start_time day_before <=? isoformat cutoff)%string = true /\
  is_month_end (mkdate 2024 2 28) = false.
Proof. repeat split; reflexivity. Qed.

(** C2. The claim: month-end detection counts leap years. In the code
    February 29 of a leap year is not treated as a month end (the 2020 leap
    day is classified EXPIRE once older than the cutoff), February 28 of a
    leap year is treated as one (classified KEEP at any age), and only
    February 28 of a common year is handled as claimed. *)
Theorem month_end_test_ignores_leap_years :
  let today := mkdate 2021 6 1 in
  let feb29_leap := mkSnapshot "snap-a" "Created by aws_snapshot_manager.py at 2020-02-29 01:00:00"
                      "2020-02-29T01:00:00.000Z" in
  let feb28_leap := mkSnapshot "snap-b" "Created by aws_snapshot_manager.py at 2020-02-28 01:00:00"
                      "2020-02-28T01:00:00.000Z" in
  let feb28_common := mkSnapshot "snap-c" "Created by aws_snapshot_manager.py at 2019-02-28 01:00:00"
                      "2019-02-28T01:00:00.000Z" in
  is_leap 2020 = true /\ is_leap 2019 = false /\
  expired_snapshots_of today [feb29_leap; feb28_leap; feb28_common]
  = Ok [feb29_leap] /\
  classify [feb29_leap] feb29_leap = EXPIRE /\
  classify [feb29_leap] feb28_leap = KEEP /\
  classify [feb29_leap] feb28_common = KEEP.
Proof. repeat split; reflexivity. Qed.

(** C3. The claim: a snapshot dated on the last calendar day of its month is
    always kept. The snapshot of 2000-02-29, the last day of February 2000,
    is in the expire set computed on 2000-04-01. *)
Theorem leap_day_is_not_immune :
  let s := mkSnapshot "snap-7" "Created by aws_snapshot_manager.py at 2000-02-29 23:30:00"
             "2000-02-29T23:30:00.000Z" in
  strptime (start_time s) = Ok (mkdatetime (mkdate 2000 2 29) 23 30 0 0) /\
  is_month_end (mkdate 2000 2 29) = true /\
  expired_snapshots_of (mkdate 2000 4 1) [s] = Ok [s] /\
  classify [s] s = EXPIRE.
Proof. repeat split; reflexivity. Qed.

(** ** The 7-day floor and the cutoff day (claims C4, C9) *)

(** A timestamp in the provider's layout whose date is after the cutoff is
    never appended by the loop. *)
Lemma newer_than_cutoff_not_appended (wd : date) (s : Snapshot) (t : datetime) :
  valid_date wd = true ->
  iso_date_layout (start_time s) = true ->
  strptime (start_time s) = Ok t ->
  toordinal wd < toordinal (dt_date t) ->
  (start_time s <=? isoformat wd)%string = false.
Proof.
  intros Vw L P O.
  pose proof (strptime_valid _ _ P) as Vt.
  destruct (strptime_layout _ _ L P) as (tail & E).
  rewrite E. apply timestamp_after; trivial.
  apply toordinal_lt_date_lt; assumption.
Qed.

(** C4. For every inventory and every reference date, a snapshot whose
    timestamp is written in the provider's layout and whose date lies in
    [today-6, today] is not in the expire set. *)
Theorem seven_day_floor (today : date) (inventory expire : list Snapshot)
    (s : Snapshot) (t : datetime) :
  valid_date today = true ->
  expired_snapshots_of today inventory = Ok expire ->
  iso_date_layout (start_time s) = true ->
  strptime (start_time s) = Ok t ->
  in_window today (dt_date t) ->
  ~ In s expire.
Proof.
  intros V H L P (Lo & Hi) Hin.
  apply (in_expire_iff _ _ _ s H) in Hin.
  destruct Hin as (_ & wd & t' & D & P' & E).
  assert (t' = t) by congruence. subst t'.
  destruct (date_sub_days_spec 7 today wd V D) as (Vw & Ow).
  unfold expire_test in E. apply andb_true_iff in E. destruct E as (E & _).
  rewrite (newer_than_cutoff_not_appended wd s t) in E; trivial;
    [discriminate | simpl in Ow; lia].
Qed.

Lemma seven_day_floor_witness :
  let today := mkdate 2024 3 15 in
  let s := mkSnapshot "snap-3" "Created by aws_snapshot_manager.py at 2024-03-09 02:00:00"
             "2024-03-09T02:00:00.000Z" in
  let old := mkSnapshot "snap-4" "Created by aws_snapshot_manager.py at 2024-03-01 02:00:00"
             "2024-03-01T02:00:00.000Z" in
  ~ In s [old].
Proof.
  cbv zeta.
  apply (seven_day_floor (mkdate 2024 3 15)
           [mkSnapshot "snap-4" "Created by aws_snapshot_manager.py at 2024-03-01 02:00:00"
              "2024-03-01T02:00:00.000Z";
            mkSnapshot "snap-3" "Created by aws_snapshot_manager.py at 2024-03-09 02:00:00"
              "2024-03-09T02:00:00.000Z"]
           _ _ (mkdatetime (mkdate 2024 3 9) 2 0 0 0)).
  - reflexivity.
  - reflexivity.
  - reflexivity.
  - reflexivity.
  - unfold in_window. vm_compute. split; discriminate.
Defined.

(** C9. A snapshot whose timestamp is written in the provider's layout and
    whose date is the cutoff day [today - 7] compares greater than the ISO
    date of the cutoff, whatever its time of day, and is not in the expire
    set; so no snapshot dated in the eight days [today-7, today] is
    expired. *)
Theorem cutoff_day_kept (today cutoff : date) (inventory expire : list Snapshot)
    (s : Snapshot) (t : datetime) :
  valid_date today = true ->
  date_sub_days today 7 = Ok cutoff ->
  expired_snapshots_of today inventory = Ok expire ->
  iso_date_layout (start_time s) = true ->
  strptime (start_time s) = Ok t ->
  (dt_date t = cutoff ->
     (start_time s <=? isoformat cutoff)%string = false /\ ~ In s expire) /\
  (toordinal today - 7 <= toordinal (dt_date t) <= toordinal today ->
     ~ In s expire).
Proof.
  intros V D H L P.
  destruct (date_sub_days_spec 7 today cutoff V D) as (Vc & Oc).
  assert (Same : dt_date t = cutoff ->
                 (start_time s <=? isoformat cutoff)%string = false).
  { intros <-. destruct (strptime_layout _ _ L P) as (tail & E).
    rewrite E at 1. apply timestamp_same_day. }
  assert (Kept : (start_time s <=? isoformat cutoff)%string = false ->
                 ~ In s expire).
  { intros F Hin. apply (in_expire_iff _ _ _ s H) in Hin.
    destruct Hin as (_ & wd & t' & D' & P' & E).
    assert (wd = cutoff) by congruence. subst wd.
    unfold expire_test in E. rewrite F in E. discriminate. }
  split.
  - intros E. split; auto.
  - intros (Lo & Hi). apply Kept.
    destruct (Z.eq_dec (toordinal (dt_date t)) (toordinal cutoff)) as [Eo | No].
    + apply Same.
      pose proof (strptime_valid _ _ P) as Vt.
      destruct (date_lt_total (dt_date t) cutoff) as [Lt | [Eq | Gt]]; trivial.
      * pose proof (toordinal_mono _ _ Vt Vc Lt). lia.
      * pose proof (toordinal_mono _ _ Vc Vt Gt). lia.
    + apply (newer_than_cutoff_not_appended cutoff s t); trivial.
      simpl in Oc. lia.
Qed.

Lemma cutoff_day_kept_witness :
  let s := mkSnapshot "snap-5" "Created by aws_snapshot_manager.py at 2024-03-08 00:00:00"
             "2024-03-08T00:00:00.000Z" in
  let old := mkSnapshot "snap-6" "Created by aws_snapshot_manager.py at 2024-03-07 23:59:59"
             "2024-03-07T23:59:59.999Z" in
  ((start_time s <=? "2024-03-08")%string = false /\ ~ In s [old]) /\ ~ In s [old].
Proof.
  cbv zeta.
  destruct (cutoff_day_kept (mkdate 2024 3 15) (mkdate 2024 3 8)
           [mkSnapshot "snap-6" "Created by aws_snapshot_manager.py at 2024-03-07 23:59:59"
              "2024-03-07T23:59:59.999Z";
            mkSnapshot "snap-5" "Created by aws_snapshot_manager.py at 2024-03-08 00:00:00"
              "2024-03-08T00:00:00.000Z"]
           [mkSnapshot "snap-6" "Created by aws_snapshot_manager.py at 2024-03-07 23:59:59"
              "2024-03-07T23:59:59.999Z"]
           (mkSnapshot "snap-5" "Created by aws_snapshot_manager.py at 2024-03-08 00:00:00"
              "2024-03-08T00:00:00.000Z")
           (mkdatetime (mkdate 2024 3 8) 0 0 0 0)
           eq_refl eq_refl eq_refl eq_refl eq_refl) as (A & B).
  split.
  - apply A. reflexivity.
  - apply B. vm_compute. split; discriminate.
Defined.

(** ** The inventory filter (claim C5) *)

(** C5. The claim: the filter returns exactly the snapshots whose description
    begins with the managed tag, character for character. The code passes the
    tag to [re.match] as a pattern, in which the [.] of [manager.py] stands
    for any character: the description of [b] differs from the tag at that
    position and [b] is returned all the same. *)
Theorem filter_takes_dot_as_wildcard :
  let a := mkSnapshot "snap-10" "Created by aws_snapshot_manager.py at 2024-03-01 02:00:00"
             "2024-03-01T02:00:00.000Z" in
  let b := mkSnapshot "snap-11" "Created by aws_snapshot_managerXpy for another job"
             "2024-03-02T02:00:00.000Z" in
  let c := mkSnapshot "snap-12" "Other tool snapshot" "2024-03-03T02:00:00.000Z" in
  has_managed_prefix a = true /\
  has_managed_prefix b = false /\
  has_managed_prefix c = false /\
  fst (get_snapshot_list [a; b; c] empty_world) = Ok [a; b].
Proof. repeat split; reflexivity. Qed.

(** ** The partition (claim C6) *)

Lemma keep_of_filter (wd : date) (inventory : list Snapshot) :
  keep_of inventory (filter (expires wd) inventory)
  = filter (fun s => negb (expires wd s)) inventory.
Proof.
  unfold keep_of. apply filter_ext_in. intros s Hin.
  destruct (in_dec Snapshot_eq_dec s (filter (expires wd) inventory)) as [I | N].
  - apply filter_In in I. destruct I as (_ & ->). reflexivity.
  - destruct (expires wd s) eqn:E; trivial.
    exfalso. apply N. apply filter_In. auto.
Qed.

Lemma filter_split {A : Type} (p : A -> bool) (l : list A) :
  Permutation l (filter (fun x => negb (p x)) l ++ filter p l).
Proof.
  induction l as [| x l IH]; simpl; [constructor |].
  destruct (p x); simpl.
  - apply Permutation_cons_app. assumption.
  - constructor. assumption.
Qed.

(** C6. When the retention pass returns, the snapshots it leaves alone and
    the expire set are disjoint, together they are the inventory, each
    snapshot counted as often as it occurs in it, and neither holds a
    snapshot from outside the inventory. *)
Theorem partition_completeness (today : date)
    (inventory keep expire : list Snapshot) :
  decide today inventory = Ok (keep, expire) ->
  (forall s, In s inventory <-> In s keep \/ In s expire) /\
  (forall s, ~ (In s keep /\ In s expire)) /\
  Permutation inventory (keep ++ expire).
Proof.
  unfold decide.
  destruct (expired_snapshots_of today inventory) as [e | x] eqn:H;
    [| discriminate].
  cbn [bind]. intros E. inversion E; subst; clear E.
  apply expired_snapshots_of_inv in H. destruct H as (wd & _ & _ & ->).
  rewrite keep_of_filter.
  split; [| split].
  - intros s. rewrite !filter_In.
    destruct (expires wd s); simpl; intuition congruence.
  - intros s (K & X). apply filter_In in K, X.
    destruct K as (_ & K), X as (_ & X). rewrite X in K. discriminate.
  - apply filter_split.
Qed.

Lemma partition_completeness_witness :
  let old := mkSnapshot "snap-20" "Created by aws_snapshot_manager.py at 2024-03-01 02:00:00"
               "2024-03-01T02:00:00.000Z" in
  let new := mkSnapshot "snap-21" "Created by aws_snapshot_manager.py at 2024-03-14 02:00:00"
               "2024-03-14T02:00:00.000Z" in
  (forall s, In s [old; new] <-> In s [new] \/ In s [old]) /\
  (forall s, ~ (In s [new] /\ In s [old])) /\
  Permutation [old; new] ([new] ++ [old]).
Proof.
  cbv zeta. apply (partition_completeness (mkdate 2024 3 15)). reflexivity.
Defined.

(** ** The deletion loop (claim C8) *)

Section Deletion.

Variable ec2_delete : list Snapshot -> Snapshot -> res unit.

(** One pass of the loop body: the call is recorded, its failure is caught
    and logged, and the loop goes on. *)
Lemma delete_step (snapshot : Snapshot) (rest : list Snapshot) (w : World) :
  delete_snapshots ec2_delete (snapshot :: rest) w
  = delete_snapshots ec2_delete rest
      (mkWorld
         (syslog_lines w ++ [INFO_deleting snapshot]
          ++ match ec2_delete (delete_calls w) snapshot with
             | Ok _ => []
             | Raise _ => [ERROR_failed_to_delete snapshot]
             end)
         (delete_calls w ++ [snapshot])).
Proof.
  cbn [delete_snapshots]. unfold mbind, syslog, try_except, snapshot_delete.
  cbn [syslog_lines delete_calls].
  destruct (ec2_delete (delete_calls w) snapshot) as [[] | e].
  - rewrite app_nil_r. reflexivity.
  - rewrite <- app_assoc. reflexivity.
Qed.

Lemma delete_snapshots_spec (l : list Snapshot) : forall w,
  exists extra,
    delete_snapshots ec2_delete l w
    = (Ok PyNone, mkWorld (syslog_lines w ++ extra) (delete_calls w ++ l)) /\
    (forall e, In e extra -> deletion_entry l e) /\
    (forall pre s post x,
       l = pre ++ s :: post ->
       ec2_delete (delete_calls w ++ pre) s = Raise x ->
       In (ERROR_failed_to_delete s) extra).
Proof.
  induction l as [| a l IH]; intros w.
  - exists []. rewrite !app_nil_r. destruct w. repeat split.
    + intros e [].
    + intros [| ? ?] ? ? ? E; discriminate E.
  - rewrite delete_step.
    destruct (IH (mkWorld
         (syslog_lines w ++ [INFO_deleting a]
          ++ match ec2_delete (delete_calls w) a with
             | Ok _ => []
             | Raise _ => [ERROR_failed_to_delete a]
             end)
         (delete_calls w ++ [a]))) as (extra & E & Only & Failed).
    cbn [syslog_lines delete_calls] in E, Failed.
    eexists. split; [| split].
    + rewrite E. rewrite <- !app_assoc. reflexivity.
    + intros e Hin. cbn [app] in Hin.
      destruct Hin as [<- | Hin]; [exists a; simpl; auto |].
      apply in_app_or in Hin. destruct Hin as [Hin | Hin].
      * destruct (ec2_delete (delete_calls w) a); [destruct Hin |].
        destruct Hin as [<- | []]. exists a; simpl; auto.
      * destruct (Only e Hin) as (s & Hs & He). exists s. simpl; auto.
    + intros pre s post x El Ex. cbn [app]. right. apply in_or_app.
      destruct pre as [| p pre]; cbn [app] in El; inversion El; subst.
      * left. rewrite app_nil_r in Ex. rewrite Ex. left; reflexivity.
      * right. apply (Failed pre s post x eq_refl).
        rewrite <- app_assoc. exact Ex.
Qed.

End Deletion.

(** C8, as the code has it. For every expire set and every behaviour of the
    provider, the loop sends one delete call per member, in order, whatever
    calls fail; every failed call is logged; and the loop returns without
    raising. *)
Theorem deletion_failures_are_tolerated
    (ec2_delete : list Snapshot -> Snapshot -> res unit)
    (expired : list Snapshot) (w : World) :
  exists v w',
    delete_snapshots ec2_delete expired w = (Ok v, w') /\
    delete_calls w' = delete_calls w ++ expired /\
    forall pre s post x,
      expired = pre ++ s :: post ->
      ec2_delete (delete_calls w ++ pre) s = Raise x ->
      In (ERROR_failed_to_delete s) (syslog_lines w').
Proof.
  destruct (delete_snapshots_spec ec2_delete expired w) as (extra & E & _ & F).
  eexists; eexists. split; [exact E |]. cbn [syslog_lines delete_calls].
  split; [reflexivity |].
  intros pre s post x El Ex. apply in_or_app. right. eauto.
Qed.

(** C8, as claimed: after a failed delete call the run would end with a
    status other than zero. With three snapshots to expire and a provider
    that refuses the second, all three calls are made and the failure is
    logged, but the run returns [None], as it does when every call
    succeeds. *)
Lemma failed_deletion_reports_no_status :
  let s1 := mkSnapshot "snap-31" "Created by aws_snapshot_manager.py at 2024-03-01 02:00:00"
              "2024-03-01T02:00:00.000Z" in
  let s2 := mkSnapshot "snap-32" "Created by aws_snapshot_manager.py at 2024-03-02 02:00:00"
              "2024-03-02T02:00:00.000Z" in
  let s3 := mkSnapshot "snap-33" "Created by aws_snapshot_manager.py at 2024-03-03 02:00:00"
              "2024-03-03T02:00:00.000Z" in
  let refuses_s2 := fun (_ : list Snapshot) (s : Snapshot) =>
    if String.eqb (id s) "snap-32" then Raise EC2Error else Ok tt in
  let always_ok := fun (_ : list Snapshot) (_ : Snapshot) => Ok tt in
  let run := manage_snapshot_inventory refuses_s2 (mkdate 2024 3 15) [s1; s2; s3]
               empty_world in
  refuses_s2 [s1] s2 = Raise EC2Error /\
  delete_calls (snd run) = [s1; s2; s3] /\
  In (ERROR_failed_to_delete s2) (syslog_lines (snd run)) /\
  fst run = Ok PyNone /\
  fst run = fst (manage_snapshot_inventory always_ok (mkdate 2024 3 15) [s1; s2; s3]
                   empty_world) /\
  ~ (exists v, fst run = Ok v /\ nonzero_status v).
Proof.
  cbv zeta. repeat split; try reflexivity.
  - vm_compute. tauto.
  - intros (v & E & n & -> & _). vm_compute in E. discriminate E.
Qed.

(** ** Errors of the retention pass (claims C7, C10) *)

Lemma manage_snapshot_inventory_ok
    (ec2_delete : list Snapshot -> Snapshot -> res unit)
    (today : date) (inventory expired : list Snapshot) (w : World) :
  expired_snapshots_of today inventory = Ok expired ->
  manage_snapshot_inventory ec2_delete today inventory w
  = match expired with
    | [] => (Ok (PyInt 0), mkWorld (syslog_lines w ++ [DEBUG_not_deleting]) (delete_calls w))
    | _ :: _ => delete_snapshots ec2_delete expired w
    end.
Proof.
  intros H. unfold manage_snapshot_inventory, mbind, lift. rewrite H.
  destruct expired as [| s l]; [reflexivity |].
  replace (len (s :: l) >? 0) with true; [reflexivity |].
  symmetry. apply Z.gtb_lt. unfold len. simpl List.length. lia.
Qed.

(** C7. When the cutoff can be computed: an inventory holding a timestamp
    that [strptime] refuses makes the retention pass raise the parse error
    ([ValueError]) before anything is logged or deleted; and on an inventory
    whose timestamps all parse, the pass returns without raising. *)
Theorem malformed_timestamp_raises
    (ec2_delete : list Snapshot -> Snapshot -> res unit)
    (today cutoff : date) (inventory : list Snapshot) (w : World) :
  date_sub_days today 7 = Ok cutoff ->
  ((exists s, In s inventory /\ forall t, strptime (start_time s) <> Ok t) ->
     manage_snapshot_inventory ec2_delete today inventory w
     = (Raise ValueError, w)) /\
  (well_formed inventory ->
     exists v w',
       manage_snapshot_inventory ec2_delete today inventory w = (Ok v, w')).
Proof.
  intros D. split.
  - intros (s & Hin & Bad).
    unfold manage_snapshot_inventory, mbind, lift, expired_snapshots_of.
    rewrite D. cbn [bind]. rewrite retention_loop_raise; [reflexivity |].
    destruct (strptime (start_time s)) as [t | e] eqn:E.
    + exfalso. apply (Bad t). reflexivity.
    + exists s, e. auto.
  - intros W.
    rewrite (manage_snapshot_inventory_ok _ _ _ _ _
               (expired_snapshots_of_ok _ _ _ D W)).
    destruct (filter (expires cutoff) inventory) as [| s l]; [eauto |].
    destruct (delete_snapshots_spec ec2_delete (s :: l) w) as (extra & E & _).
    rewrite E. eauto.
Qed.

Lemma malformed_timestamp_raises_witness :
  let provider := fun (_ : list Snapshot) (_ : Snapshot) => Ok tt in
  let good := mkSnapshot "snap-40" "Created by aws_snapshot_manager.py at 2024-03-01 02:00:00"
                "2024-03-01T02:00:00.000Z" in
  let bad := mkSnapshot "snap-41" "Created by aws_snapshot_manager.py at 2024-03-02 02:00:00"
                "2024-03-02 02:00:00" in
  manage_snapshot_inventory provider (mkdate 2024 3 15) [good; bad] empty_world
  = (Raise ValueError, empty_world) /\
  exists v w',
    manage_snapshot_inventory provider (mkdate 2024 3 15) [good] empty_world = (Ok v, w').
Proof.
  cbv zeta. split.
  - apply (malformed_timestamp_raises _ (mkdate 2024 3 15) (mkdate 2024 3 8));
      [reflexivity |].
    eexists. split; [right; left; reflexivity |].
    intros t E. vm_compute in E. discriminate E.
  - apply (malformed_timestamp_raises _ (mkdate 2024 3 15) (mkdate 2024 3 8));
      [reflexivity |].
    intros s [<- | []]. eexists. vm_compute. reflexivity.
Defined.

(** C10. The branch that logs the negative count and returns 1 never runs:
    whatever the inputs, the pass adds no such line to the log and does not
    return 1; when it returns, it has either run the deletion loop on a
    non-empty expire set or found the expire set empty and returned 0. *)
Theorem negative_branch_unreachable
    (ec2_delete : list Snapshot -> Snapshot -> res unit)
    (today : date) (inventory : list Snapshot) (w : World) :
  let run := manage_snapshot_inventory ec2_delete today inventory w in
  (exists extra,
     syslog_lines (snd run) = syslog_lines w ++ extra /\
     ~ In ERROR_negative_number extra) /\
  fst run <> Ok (PyInt 1) /\
  forall v, fst run = Ok v ->
    exists expired,
      expired_snapshots_of today inventory = Ok expired /\
      ((expired <> [] /\ run = delete_snapshots ec2_delete expired w)
       \/ (expired = [] /\ v = PyInt 0)).
Proof.
  cbv zeta.
  destruct (expired_snapshots_of today inventory) as [expired | x] eqn:H.
  - rewrite (manage_snapshot_inventory_ok _ _ _ _ _ H).
    destruct expired as [| s l].
    + cbn [fst snd syslog_lines]. split; [| split].
      * exists [DEBUG_not_deleting]. split; [reflexivity |].
        intros [E | []]; discriminate E.
      * discriminate.
      * intros v E. inversion E; subst. exists []. auto.
    + destruct (delete_snapshots_spec ec2_delete (s :: l) w)
        as (extra & E & Only & _).
      rewrite E. cbn [fst snd syslog_lines]. split; [| split].
      * exists extra. split; [reflexivity |].
        intros Hin. destruct (Only _ Hin) as (y & _ & [Ey | Ey]); discriminate Ey.
      * discriminate.
      * intros v _. exists (s :: l). split; [reflexivity |].
        left. split; [discriminate | symmetry; exact E].
  - unfold manage_snapshot_inventory, mbind, lift. rewrite H.
    cbn [fst snd]. split; [| split].
    + exists []. rewrite app_nil_r. split; [reflexivity | intros []].
    + discriminate.
    + intros v E. discriminate E.
Qed.

(** * Further properties of the code *)

(** ** [get_snapshot_list] *)

Lemma prefix_re_match (pattern s : string) :
  (forall c, ch "." c = true -> c <> newline) ->
  String.prefix pattern s = true -> re_match pattern s = true.
Proof.
  intros _. revert s. induction pattern as [| p pattern IH]; intros s H.
  - reflexivity.
  - destruct s as [| c s]; [discriminate H |].
    simpl in H. destruct (ascii_dec p c) as [<- | N]; [| discriminate H].
    cbn [re_match]. rewrite (IH s H), andb_true_r.
    destruct (ch "." p) eqn:E.
    + apply Ascii.eqb_eq in E. subst p. reflexivity.
    + unfold ch. apply Ascii.eqb_refl.
Qed.

Lemma re_match_literal (p c : ascii) (pattern s : string) :
  ch "." p = false ->
  re_match (String p pattern) (String c s) = true ->
  c = p /\ re_match pattern s = true.
Proof.
  intros D H. cbn [re_match] in H. rewrite D in H.
  apply andb_true_iff in H. destruct H as (E & H).
  apply Ascii.eqb_eq in E. auto.
Qed.

Lemma re_match_dot (c : ascii) (pattern s : string) :
  re_match (String "." pattern) (String c s) = true ->
  c <> newline /\ re_match pattern s = true.
Proof.
  intros H. cbn [re_match] in H.
  replace (ch "." ".") with true in H by reflexivity.
  apply andb_true_iff in H. destruct H as (E & H). split; trivial.
  intros ->. discriminate E.
Qed.

Lemma re_match_managed_tag (d : string) :
  re_match managed_tag d = true <->
  exists c rest,
    c <> newline /\
    d = ("Created by aws_snapshot_manager" ++ String c ("py" ++ rest))%string.
Proof.
  unfold managed_tag. split.
  - intros H.
    repeat match type of H with
    | re_match (String _ _) ?s = true =>
        destruct s as [| ? ?]; [discriminate H |];
        first [ apply re_match_literal in H;
                [destruct H as [-> H] | reflexivity]
              | apply re_match_dot in H; destruct H as [?N H] ]
    end.
    eexists; eexists. split; [eassumption | reflexivity].
  - intros (c & rest & N & ->).
    cbn [String.append re_match].
    repeat match goal with
    | |- context [ch ?a ?b] =>
        tryif is_var b then fail
        else (let v := eval vm_compute in (ch a b) in change (ch a b) with v)
    end.
    cbn [andb]. rewrite andb_true_r. apply negb_true_iff.
    destruct (ch newline c) eqn:E; trivial.
    apply Ascii.eqb_eq in E. congruence.
Qed.

Lemma filter_subseq {A : Type} (p : A -> bool) (l : list A) :
  subseq (filter p l) l.
Proof.
  induction l as [| x l IH]; simpl; [constructor |].
  destruct (p x); constructor; assumption.
Qed.

Lemma get_snapshot_list_eq (all_snapshots : list Snapshot) (w : World) :
  let l := filter (fun i => re_match managed_tag (description i)) all_snapshots in
  get_snapshot_list all_snapshots w
  = (Ok l,
     mkWorld (syslog_lines w ++ DEBUG_snapshots_in_inventory (len l)
              :: (if len l <? 7 then [ERROR_only_n_snapshots (len l)] else []))
             (delete_calls w)).
Proof.
  cbv zeta. unfold get_snapshot_list, mbind, when, debug, syslog, ret.
  cbn [syslog_lines delete_calls].
  destruct (len _ <? 7); cbn [syslog_lines delete_calls].
  - rewrite <- app_assoc. reflexivity.
  - reflexivity.
Qed.

(** X1. Every listed snapshot whose description begins with the managed tag,
    character for character, is returned by [get_snapshot_list]. *)
Theorem exact_prefix_is_selected (all_snapshots : list Snapshot) (w : World)
    (s : Snapshot) :
  In s all_snapshots -> has_managed_prefix s = true ->
  exists l w', get_snapshot_list all_snapshots w = (Ok l, w') /\ In s l.
Proof.
  intros Hin P. rewrite get_snapshot_list_eq. eexists; eexists.
  split; [reflexivity |]. apply filter_In. split; trivial.
  apply prefix_re_match; trivial.
  intros c E. apply Ascii.eqb_eq in E. subst c. discriminate.
Qed.

Lemma exact_prefix_is_selected_witness :
  exists l w',
    get_snapshot_list sample_snapshots empty_world = (Ok l, w') /\
    In (sample_snapshot "snap-old" "2024-03-01 02:00:00" "2024-03-01T02:00:00.000Z") l.
Proof.
  apply (exact_prefix_is_selected sample_snapshots empty_world).
  - left. reflexivity.
  - reflexivity.
Defined.

(** X2. [get_snapshot_list] returns exactly the listed snapshots whose
    description is the tag with any character but a newline in the place of
    its dot, followed by anything. *)
Theorem selected_up_to_the_dot (all_snapshots l : list Snapshot) (w w' : World)
    (s : Snapshot) :
  get_snapshot_list all_snapshots w = (Ok l, w') ->
  (In s l <->
   In s all_snapshots /\
   exists c rest,
     c <> newline /\
     description s
     = ("Created by aws_snapshot_manager" ++ String c ("py" ++ rest))%string).
Proof.
  rewrite get_snapshot_list_eq. intros E.
  assert (El : l = filter (fun i => re_match managed_tag (description i))
                      all_snapshots) by congruence.
  subst l. rewrite filter_In. cbv beta. rewrite re_match_managed_tag.
  reflexivity.
Qed.

Lemma selected_up_to_the_dot_witness :
  In (mkSnapshot "snap-x" "Created by aws_snapshot_manager-py" "2024-03-01T02:00:00.000Z")
     [mkSnapshot "snap-x" "Created by aws_snapshot_manager-py" "2024-03-01T02:00:00.000Z"] <->
  In (mkSnapshot "snap-x" "Created by aws_snapshot_manager-py" "2024-03-01T02:00:00.000Z")
     [mkSnapshot "snap-y" "created by aws_snapshot_manager.py" "2024-03-01T02:00:00.000Z";
      mkSnapshot "snap-x" "Created by aws_snapshot_manager-py" "2024-03-01T02:00:00.000Z"] /\
  exists c rest,
    c <> newline /\
    "Created by aws_snapshot_manager-py"
    = ("Created by aws_snapshot_manager" ++ String c ("py" ++ rest))%string.
Proof.
  apply (selected_up_to_the_dot
           [mkSnapshot "snap-y" "created by aws_snapshot_manager.py" "2024-03-01T02:00:00.000Z";
            mkSnapshot "snap-x" "Created by aws_snapshot_manager-py" "2024-03-01T02:00:00.000Z"]
           _ empty_world
           (mkWorld [DEBUG_snapshots_in_inventory 1; ERROR_only_n_snapshots 1] [])).
  reflexivity.
Defined.

(** X3. The list [get_snapshot_list] returns is the list it was given with
    some snapshots left out: nothing is added and the order is kept. *)
Theorem filter_keeps_input_order (all_snapshots l : list Snapshot) (w w' : World) :
  get_snapshot_list all_snapshots w = (Ok l, w') -> subseq l all_snapshots.
Proof.
  rewrite get_snapshot_list_eq. intros E.
  assert (El : l = filter (fun i => re_match managed_tag (description i))
                      all_snapshots) by congruence.
  subst l. apply filter_subseq.
Qed.

Lemma filter_keeps_input_order_witness :
  subseq [sample_snapshot "snap-old" "2024-03-01 02:00:00" "2024-03-01T02:00:00.000Z";
          sample_snapshot "snap-recent" "2024-03-14 02:00:00" "2024-03-14T02:00:00.000Z"]
         sample_snapshots.
Proof.
  apply (filter_keeps_input_order sample_snapshots _ empty_world
           (mkWorld [DEBUG_snapshots_in_inventory 2; ERROR_only_n_snapshots 2] [])).
  reflexivity.
Defined.


(** ** The retention pass *)

Lemma days_in_month_common (y m : Z) :
  ~ (m = 2 /\ is_leap y = true) -> days_in_month y m = mdays_at m.
Proof.
  intros N. unfold days_in_month.
  destruct (m =? 2) eqn:E; [| reflexivity].
  destruct (is_leap y) eqn:L; [| reflexivity].
  apply Z.eqb_eq in E. tauto.
Qed.

(** X5. For a snapshot whose timestamp parses to a date outside a leap-year
    February, the pass expires it exactly when its [start_time] is at most the
    ISO date of the cutoff and its date is not the last calendar day of its
    month. *)
Theorem retention_rule_outside_leap_february (today cutoff : date)
    (inventory expire : list Snapshot) (s : Snapshot) (t : datetime) :
  date_sub_days today 7 = Ok cutoff ->
  expired_snapshots_of today inventory = Ok expire ->
  In s inventory ->
  strptime (start_time s) = Ok t ->
  ~ (month (dt_date t) = 2 /\ is_leap (year (dt_date t)) = true) ->
  (In s expire <->
   (start_time s <=? isoformat cutoff)%string = true /\
   is_month_end (dt_date t) = false).
Proof.
  intros D H Hin P N. rewrite (in_expire_iff _ _ _ s H).
  unfold is_month_end. rewrite (days_in_month_common _ _ N).
  split.
  - intros (_ & wd & t' & D' & P' & E).
    assert (wd = cutoff) by congruence. assert (t' = t) by congruence. subst.
    unfold expire_test in E. apply andb_true_iff in E.
    destruct E as (E1 & E2). apply negb_true_iff in E2. auto.
  - intros (E1 & E2). split; trivial. exists cutoff, t.
    repeat split; trivial. unfold expire_test. rewrite E1, E2. reflexivity.
Qed.

Lemma retention_rule_outside_leap_february_witness :
  In (sample_snapshot "snap-old" "2024-03-01 02:00:00" "2024-03-01T02:00:00.000Z") [sample_snapshot "snap-old" "2024-03-01 02:00:00" "2024-03-01T02:00:00.000Z"] <->
  ((start_time (sample_snapshot "snap-old" "2024-03-01 02:00:00" "2024-03-01T02:00:00.000Z") <=? isoformat (mkdate 2024 3 8))%string = true /\
   is_month_end (mkdate 2024 3 1) = false).
Proof.
  apply (retention_rule_outside_leap_february (mkdate 2024 3 15) (mkdate 2024 3 8)
           sample_inventory _ _ (mkdatetime (mkdate 2024 3 1) 2 0 0 0)).
  - reflexivity.
  - reflexivity.
  - left. reflexivity.
  - reflexivity.
  - intros (E & _). discriminate E.
Defined.

(** X6. A snapshot dated on the last calendar day of its month, other than
    a 29th of February, is never in the expire set, whatever its age. *)
Theorem month_end_kept_except_leap_day (today : date)
    (inventory expire : list Snapshot) (s : Snapshot) (t : datetime) :
  expired_snapshots_of today inventory = Ok expire ->
  strptime (start_time s) = Ok t ->
  is_month_end (dt_date t) = true ->
  ~ (month (dt_date t) = 2 /\ day (dt_date t) = 29) ->
  ~ In s expire.
Proof.
  intros H P Me N Hin. apply (in_expire_iff _ _ _ s H) in Hin.
  destruct Hin as (_ & wd & t' & _ & P' & E).
  assert (t' = t) by congruence. subst t'.
  unfold expire_test in E. apply andb_true_iff in E. destruct E as (_ & E).
  apply negb_true_iff, Z.eqb_neq in E. apply E.
  unfold is_month_end in Me. apply Z.eqb_eq in Me. rewrite Me.
  unfold days_in_month.
  destruct (month (dt_date t) =? 2) eqn:M2; [| reflexivity].
  destruct (is_leap (year (dt_date t))) eqn:L; [| reflexivity].
  exfalso. apply N. apply Z.eqb_eq in M2. split; trivial.
  rewrite Me. unfold days_in_month. rewrite M2, L. reflexivity.
Qed.

Lemma month_end_kept_except_leap_day_witness :
  ~ In (sample_snapshot "snap-jan" "2023-01-31 02:00:00" "2023-01-31T02:00:00.000Z")
       [sample_snapshot "snap-old" "2024-03-01 02:00:00" "2024-03-01T02:00:00.000Z"].
Proof.
  apply (month_end_kept_except_leap_day (mkdate 2024 3 15)
           [sample_snapshot "snap-jan" "2023-01-31 02:00:00" "2023-01-31T02:00:00.000Z";
            sample_snapshot "snap-old" "2024-03-01 02:00:00" "2024-03-01T02:00:00.000Z"]
           _ _ (mkdatetime (mkdate 2023 1 31) 2 0 0 0)).
  - reflexivity.
  - reflexivity.
  - reflexivity.
  - intros (E & _). discriminate E.
Defined.

(** X7. A snapshot of the inventory whose timestamp is in the provider's
    layout, dated more than 7 days before the reference date, and whose day
    of month is not the [calendar.mdays] entry of its month, is in the expire
    set. *)
Theorem older_than_cutoff_expires (today : date)
    (inventory expire : list Snapshot) (s : Snapshot) (t : datetime) :
  valid_date today = true ->
  expired_snapshots_of today inventory = Ok expire ->
  In s inventory ->
  iso_date_layout (start_time s) = true ->
  strptime (start_time s) = Ok t ->
  toordinal (dt_date t) < toordinal today - 7 ->
  day (dt_date t) <> mdays_at (month (dt_date t)) ->
  In s expire.
Proof.
  intros V H Hin L P O Nm. apply (in_expire_iff _ _ _ s H). split; trivial.
  destruct (expired_snapshots_of_inv _ _ _ H) as (wd & D & _ & _).
  exists wd, t. repeat split; trivial.
  destruct (date_sub_days_spec 7 today wd V D) as (Vw & Ow).
  pose proof (strptime_valid _ _ P) as Vt.
  destruct (strptime_layout _ _ L P) as (tail & E).
  unfold expire_test. apply andb_true_iff. split.
  - rewrite E. apply timestamp_before; trivial.
    apply toordinal_lt_date_lt; trivial. simpl in Ow. lia.
  - apply negb_true_iff, Z.eqb_neq. assumption.
Qed.

Lemma older_than_cutoff_expires_witness :
  In (sample_snapshot "snap-old" "2024-03-01 02:00:00" "2024-03-01T02:00:00.000Z") [sample_snapshot "snap-old" "2024-03-01 02:00:00" "2024-03-01T02:00:00.000Z"].
Proof.
  apply (older_than_cutoff_expires (mkdate 2024 3 15) sample_inventory _ _
           (mkdatetime (mkdate 2024 3 1) 2 0 0 0)).
  - reflexivity.
  - reflexivity.
  - left. reflexivity.
  - reflexivity.
  - reflexivity.
  - vm_compute. reflexivity.
  - vm_compute. discriminate.
Defined.

(** X8. The expire set is the inventory with some snapshots left out, in the
    order of the inventory. *)
Theorem expire_set_keeps_inventory_order (today : date)
    (inventory expire : list Snapshot) :
  expired_snapshots_of today inventory = Ok expire -> subseq expire inventory.
Proof.
  intros H. apply expired_snapshots_of_inv in H.
  destruct H as (wd & _ & _ & ->). apply filter_subseq.
Qed.

Lemma expire_set_keeps_inventory_order_witness :
  subseq [sample_snapshot "snap-old" "2024-03-01 02:00:00" "2024-03-01T02:00:00.000Z"] sample_inventory.
Proof.
  apply (expire_set_keeps_inventory_order (mkdate 2024 3 15)). reflexivity.
Defined.

Lemma date_sub_days_raises (n : nat) : forall d e,
  date_sub_days d n = Raise e -> e = OverflowError.
Proof.
  induction n as [| k IH]; intros d e H; simpl in H; [discriminate |].
  destruct (valid_date (prev_day d)); [eauto | congruence].
Qed.

Lemma first_day (d : date) :
  valid_date d = true -> toordinal d <= 1 -> d = mkdate 1 1 1.
Proof.
  intros V O.
  assert (V1 : valid_date (mkdate 1 1 1) = true) by reflexivity.
  assert (O1 : toordinal (mkdate 1 1 1) = 1) by reflexivity.
  destruct (date_lt_total d (mkdate 1 1 1)) as [L | [E | G]]; trivial.
  - pose proof (toordinal_mono _ _ V V1 L). pose proof (toordinal_first d V). lia.
  - pose proof (toordinal_mono _ _ V1 V G). lia.
Qed.

Lemma date_sub_days_overflow (n : nat) : forall d,
  valid_date d = true -> toordinal d <= Z.of_nat n ->
  date_sub_days d n = Raise OverflowError.
Proof.
  induction n as [| k IH]; intros d V O.
  - pose proof (toordinal_first d V). simpl in O. lia.
  - simpl. destruct (valid_date (prev_day d)) eqn:Vp; [| reflexivity].
    apply IH; trivial. rewrite toordinal_prev_day by assumption. lia.
Qed.

(** X9. On a reference date within the first seven days of year 1 the
    subtraction of 7 days overflows: the pass raises [OverflowError] before
    reading any timestamp, logging or deleting. On any later date the cutoff
    exists and the pass does not raise [OverflowError]. *)
Theorem cutoff_before_first_day_overflows
    (ec2_delete : list Snapshot -> Snapshot -> res unit)
    (today : date) (inventory : list Snapshot) (w : World) :
  valid_date today = true ->
  (toordinal today <= 7 ->
     manage_snapshot_inventory ec2_delete today inventory w
     = (Raise OverflowError, w)) /\
  (7 < toordinal today ->
     exists cutoff, date_sub_days today 7 = Ok cutoff /\
       fst (manage_snapshot_inventory ec2_delete today inventory w)
       <> Raise OverflowError).
Proof.
  intros V. split.
  - intros O. unfold manage_snapshot_inventory, mbind, lift, expired_snapshots_of.
    rewrite (date_sub_days_overflow 7 today V O). reflexivity.
  - intros O. destruct (date_sub_days_total 7 today V O) as (c & D).
    exists c. split; trivial.
    destruct (well_formed_dec inventory) as [W | R].
    + rewrite (manage_snapshot_inventory_ok _ _ _ _ _
                 (expired_snapshots_of_ok _ _ _ D W)).
      destruct (filter (expires c) inventory) as [| s l]; [discriminate |].
      destruct (delete_snapshots_spec ec2_delete (s :: l) w) as (extra & E & _).
      rewrite E. discriminate.
    + unfold manage_snapshot_inventory, mbind, lift, expired_snapshots_of.
      rewrite D. cbn [bind]. rewrite retention_loop_raise by assumption.
      discriminate.
Qed.

Lemma cutoff_before_first_day_overflows_witness :
  manage_snapshot_inventory (fun _ _ => Ok tt) (mkdate 1 1 3) sample_inventory
    empty_world
  = (Raise OverflowError, empty_world).
Proof.
  apply (cutoff_before_first_day_overflows (fun _ _ => Ok tt) (mkdate 1 1 3)
           sample_inventory empty_world eq_refl).
  vm_compute. discriminate.
Defined.

(** X10. The cutoff of line 95 is a valid date, and its proleptic ordinal is
    that of the reference date minus 7. *)
Theorem cutoff_is_seven_days_back (today cutoff : date) :
  valid_date today = true ->
  date_sub_days today 7 = Ok cutoff ->
  valid_date cutoff = true /\ toordinal cutoff = toordinal today - 7.
Proof. intros V D. apply (date_sub_days_spec 7 today cutoff V D). Qed.

Lemma cutoff_is_seven_days_back_witness :
  valid_date (mkdate 2024 2 27) = true /\
  toordinal (mkdate 2024 2 27) = toordinal (mkdate 2024 3 5) - 7.
Proof.
  apply (cutoff_is_seven_days_back (mkdate 2024 3 5) (mkdate 2024 2 27));
    reflexivity.
Defined.

Lemma manage_delete_calls
    (ec2_delete : list Snapshot -> Snapshot -> res unit)
    (today : date) (inventory expired : list Snapshot) (w : World) :
  expired_snapshots_of today inventory = Ok expired ->
  delete_calls (snd (manage_snapshot_inventory ec2_delete today inventory w))
  = delete_calls w ++ expired /\
  fst (manage_snapshot_inventory ec2_delete today inventory w)
  = Ok (match expired with [] => PyInt 0 | _ :: _ => PyNone end).
Proof.
  intros H. rewrite (manage_snapshot_inventory_ok _ _ _ _ _ H).
  destruct expired as [| s l].
  - cbn [fst snd delete_calls]. rewrite app_nil_r. auto.
  - destruct (delete_snapshots_spec ec2_delete (s :: l) w) as (extra & E & _).
    rewrite E. cbn [fst snd delete_calls]. auto.
Qed.

(** X11. When the expire set can be computed, the pass sends one delete call
    for each of its members, in order, and no other; it returns 0 when the
    set is empty and [None] otherwise. *)
Theorem pass_deletes_exactly_the_expire_set
    (ec2_delete : list Snapshot -> Snapshot -> res unit)
    (today : date) (inventory expired : list Snapshot) (w : World) :
  expired_snapshots_of today inventory = Ok expired ->
  delete_calls (snd (manage_snapshot_inventory ec2_delete today inventory w))
  = delete_calls w ++ expired /\
  fst (manage_snapshot_inventory ec2_delete today inventory w)
  = Ok (match expired with [] => PyInt 0 | _ :: _ => PyNone end).
Proof. apply manage_delete_calls. Qed.

Lemma pass_deletes_exactly_the_expire_set_witness :
  delete_calls (snd (manage_snapshot_inventory (fun _ _ => Ok tt) (mkdate 2024 3 15)
                       sample_inventory empty_world))
  = delete_calls empty_world ++ [sample_snapshot "snap-old" "2024-03-01 02:00:00" "2024-03-01T02:00:00.000Z"] /\
  fst (manage_snapshot_inventory (fun _ _ => Ok tt) (mkdate 2024 3 15)
         sample_inventory empty_world)
  = Ok PyNone.
Proof.
  apply (pass_deletes_exactly_the_expire_set (fun _ _ => Ok tt) (mkdate 2024 3 15)
           sample_inventory [sample_snapshot "snap-old" "2024-03-01 02:00:00" "2024-03-01T02:00:00.000Z"] empty_world).
  reflexivity.
Defined.

Lemma manage_snapshot_inventory_raise
    (ec2_delete : list Snapshot -> Snapshot -> res unit)
    (today : date) (inventory : list Snapshot) (w : World) (e : exn) :
  expired_snapshots_of today inventory = Raise e ->
  manage_snapshot_inventory ec2_delete today inventory w = (Raise e, w).
Proof.
  intros H. unfold manage_snapshot_inventory, mbind, lift. rewrite H.
  reflexivity.
Qed.

(** X12. The pass never sends a delete call for a snapshot whose timestamp
    is in the provider's layout and dated in the eight days
    [today-7, today]. *)
Theorem last_eight_days_are_never_deleted
    (ec2_delete : list Snapshot -> Snapshot -> res unit)
    (today : date) (inventory : list Snapshot) (w : World)
    (s : Snapshot) (t : datetime) :
  valid_date today = true ->
  iso_date_layout (start_time s) = true ->
  strptime (start_time s) = Ok t ->
  toordinal today - 7 <= toordinal (dt_date t) <= toordinal today ->
  In s (delete_calls (snd (manage_snapshot_inventory ec2_delete today inventory w))) ->
  In s (delete_calls w).
Proof.
  intros V L P O Hin.
  destruct (expired_snapshots_of today inventory) as [expired | e] eqn:H.
  - destruct (manage_delete_calls ec2_delete _ _ _ w H) as (E & _).
    rewrite E in Hin. apply in_app_or in Hin. destruct Hin as [Hin | Hin]; trivial.
    exfalso. apply (in_expire_iff _ _ _ s H) in Hin.
    destruct Hin as (_ & wd & t' & D & P' & X).
    assert (t' = t) by congruence. subst t'.
    destruct (date_sub_days_spec 7 today wd V D) as (Vw & Ow). simpl in Ow.
    unfold expire_test in X. apply andb_true_iff in X. destruct X as (X & _).
    destruct (Z.eq_dec (toordinal (dt_date t)) (toordinal wd)) as [Eo | No].
    + pose proof (strptime_valid _ _ P) as Vt.
      assert (dt_date t = wd).
      { destruct (date_lt_total (dt_date t) wd) as [Lt | [Eq | Gt]]; trivial.
        - pose proof (toordinal_mono _ _ Vt Vw Lt). lia.
        - pose proof (toordinal_mono _ _ Vw Vt Gt). lia. }
      subst wd. destruct (strptime_layout _ _ L P) as (tail & El).
      rewrite El in X at 1. rewrite timestamp_same_day in X. discriminate.
    + rewrite (newer_than_cutoff_not_appended wd s t) in X; trivial;
        [discriminate | lia].
  - rewrite (manage_snapshot_inventory_raise _ _ _ _ _ H) in Hin. exact Hin.
Qed.

Lemma last_eight_days_are_never_deleted_witness :
  In (sample_snapshot "snap-recent" "2024-03-14 02:00:00" "2024-03-14T02:00:00.000Z") [sample_snapshot "snap-recent" "2024-03-14 02:00:00" "2024-03-14T02:00:00.000Z"].
Proof.
  apply (last_eight_days_are_never_deleted (fun _ _ => Ok tt) (mkdate 2024 3 15)
           sample_inventory (mkWorld [] [sample_snapshot "snap-recent" "2024-03-14 02:00:00" "2024-03-14T02:00:00.000Z"]) _
           (mkdatetime (mkdate 2024 3 14) 2 0 0 0)).
  - reflexivity.
  - reflexivity.
  - reflexivity.
  - vm_compute. split; discriminate.
  - vm_compute. left. reflexivity.
Defined.

(** ** Timestamps that [strptime] accepts *)

Lemma digit_is_digit (a : Z) :
  0 <= a <= 9 -> is_digit (digit a) = true /\ digit_val (digit a) = a.
Proof.
  intros H.
  assert (E : a = 0 \/ a = 1 \/ a = 2 \/ a = 3 \/ a = 4 \/ a = 5 \/ a = 6
              \/ a = 7 \/ a = 8 \/ a = 9) by lia.
  repeat (destruct E as [E | E]); subst; split; reflexivity.
Qed.

Lemma re_Y_pad4 (y : Z) (r : string) :
  0 <= y <= 9999 -> re_Y (pad4 y ++ r)%string = Some (y, r).
Proof.
  intros H. destruct (four_digits y H) as (A3 & A2 & A1 & A0 & E).
  unfold pad4, pad2. cbn [String.append]. unfold re_Y.
  destruct (digit_is_digit _ A3) as (-> & ->).
  destruct (digit_is_digit _ A2) as (-> & ->).
  destruct (digit_is_digit _ A1) as (-> & ->).
  destruct (digit_is_digit _ A0) as (-> & ->).
  cbn [andb]. rewrite <- E. reflexivity.
Qed.

Lemma below (n : nat) (z : Z) :
  0 <= z < Z.of_nat n -> exists k, (k < n)%nat /\ z = Z.of_nat k.
Proof. intros H. exists (Z.to_nat z). lia. Qed.

Lemma re_m_pad2 (m : Z) (r : string) :
  1 <= m <= 12 -> re_m (pad2 m ++ r)%string = Some (m, r).
Proof.
  intros H. destruct (below 13 m) as (k & Hk & ->); [lia |].
  do 13 (destruct k as [| k]; [try reflexivity; lia |]). lia.
Qed.

Lemma re_d_pad2 (d : Z) (r : string) :
  1 <= d <= 31 -> re_d (pad2 d ++ r)%string = Some (d, r).
Proof.
  intros H. destruct (below 32 d) as (k & Hk & ->); [lia |].
  do 32 (destruct k as [| k]; [try reflexivity; lia |]). lia.
Qed.

Lemma re_H_pad2 (h : Z) (r : string) :
  0 <= h <= 23 -> re_H (pad2 h ++ r)%string = Some (h, r).
Proof.
  intros H. destruct (below 24 h) as (k & Hk & ->); [lia |].
  do 24 (destruct k as [| k]; [reflexivity |]). lia.
Qed.

Lemma re_M_pad2 (m : Z) (r : string) :
  0 <= m <= 59 -> re_M (pad2 m ++ r)%string = Some (m, r).
Proof.
  intros H. destruct (below 60 m) as (k & Hk & ->); [lia |].
  do 60 (destruct k as [| k]; [reflexivity |]). lia.
Qed.

Lemma re_S_pad2 (s : Z) (r : string) :
  0 <= s <= 59 -> re_S (pad2 s ++ r)%string = Some (s, r).
Proof.
  intros H. destruct (below 60 s) as (k & Hk & ->); [lia |].
  do 60 (destruct k as [| k]; [reflexivity |]). lia.
Qed.

Lemma six_digits (n : Z) :
  0 <= n <= 999999 ->
  0 <= n / 10000 / 10 mod 10 <= 9 /\ 0 <= n / 10000 mod 10 <= 9 /\
  0 <= n / 100 / 10 mod 10 <= 9 /\ 0 <= n / 100 mod 10 <= 9 /\
  0 <= n / 10 mod 10 <= 9 /\ 0 <= n mod 10 <= 9 /\
  n = 100000 * (n / 10000 / 10 mod 10) + 10000 * (n / 10000 mod 10)
      + 1000 * (n / 100 / 10 mod 10) + 100 * (n / 100 mod 10)
      + 10 * (n / 10 mod 10) + n mod 10.
Proof. intros H. Z.div_mod_to_equations. lia. Qed.

Lemma re_f_pad6 (n : Z) (r : string) :
  0 <= n <= 999999 ->
  re_f (pad6 n ++ String "Z" r)%string = Some (n, String "Z" r).
Proof.
  intros H. destruct (six_digits n H) as (A5 & A4 & A3 & A2 & A1 & A0 & E).
  unfold pad6, pad2. cbn [String.append]. unfold re_f. cbn [digits_upto].
  destruct (digit_is_digit _ A5) as (-> & ->).
  destruct (digit_is_digit _ A4) as (-> & ->).
  destruct (digit_is_digit _ A3) as (-> & ->).
  destruct (digit_is_digit _ A2) as (-> & ->).
  destruct (digit_is_digit _ A1) as (-> & ->).
  destruct (digit_is_digit _ A0) as (-> & ->).
  cbn [Nat.eqb]. f_equal. f_equal.
  change (10 ^ Z.of_nat 0) with 1. lia.
Qed.

Lemma iso_date_layout_timestamp (d : date) (rest : string) :
  valid_date d = true ->
  iso_date_layout (isoformat d ++ String "T" rest)%string = true.
Proof.
  intros V. apply valid_date_fields in V. destruct V as (Hy & Hm & Hd).
  pose proof (days_in_month_bounds (year d) (month d) Hm).
  assert (Y : 0 <= year d <= 9999) by lia.
  assert (M : 0 <= month d <= 99) by lia.
  assert (D : 0 <= day d <= 99) by lia.
  destruct (four_digits _ Y) as (Y3 & Y2 & Y1 & Y0 & _).
  destruct (two_digits _ M) as (M1 & M0 & _).
  destruct (two_digits _ D) as (D1 & D0 & _).
  unfold isoformat, pad4, pad2. cbn [String.append]. unfold iso_date_layout.
  destruct (digit_is_digit _ Y3) as (-> & _).
  destruct (digit_is_digit _ Y2) as (-> & _).
  destruct (digit_is_digit _ Y1) as (-> & _).
  destruct (digit_is_digit _ Y0) as (-> & _).
  destruct (digit_is_digit _ M1) as (-> & _).
  destruct (digit_is_digit _ M0) as (-> & _).
  destruct (digit_is_digit _ D1) as (-> & _).
  destruct (digit_is_digit _ D0) as (-> & _).
  reflexivity.
Qed.

Lemma string_app_assoc (a b c : string) :
  ((a ++ b) ++ c)%string = (a ++ (b ++ c))%string.
Proof. induction a as [| k a IH]; simpl; congruence. Qed.

Ltac literal c :=
  cbn [String.append]; unfold lit_nocase, orelse, lit;
  replace (ch c c) with true by reflexivity;
  cbn [String.append].

(** X13. [strptime] reads back every timestamp written with the format of
    line 99 and zero-padded fields: for a valid date and a time of day in
    range it returns the [datetime] that was written, and such a timestamp is
    in the provider's layout. *)
Theorem strptime_reads_padded_timestamps (t : datetime) :
  valid_date (dt_date t) = true ->
  0 <= hour t <= 23 -> 0 <= minute t <= 59 -> 0 <= second t <= 59 ->
  0 <= microsecond t <= 999999 ->
  strptime (timestamp_of t) = Ok t /\
  iso_date_layout (timestamp_of t) = true.
Proof.
  intros V Hh Hm Hs Hu. split.
  - destruct t as [[y m d] h mi s u]. cbn [dt_date hour minute second microsecond] in *.
    pose proof (valid_date_fields _ V) as (Y & Mo & D).
    cbn [year month day] in Y, Mo, D.
    pose proof (days_in_month_bounds y m Mo).
    unfold strptime, timestamp_of, isoformat.
    cbn [dt_date hour minute second microsecond year month day].
    unfold format_regex, pbind.
    rewrite !string_app_assoc.
    rewrite re_Y_pad4 by lia. literal ("-"%char).
    rewrite re_m_pad2 by lia. literal ("-"%char).
    rewrite re_d_pad2 by lia. literal ("T"%char).
    rewrite re_H_pad2 by lia. literal (":"%char).
    rewrite re_M_pad2 by lia. literal (":"%char).
    rewrite re_S_pad2 by lia. literal ("."%char).
    rewrite re_f_pad6 by lia. literal ("Z"%char).
    unfold pret, valid_datetime. cbn [dt_date second]. rewrite V.
    replace (s <=? 59) with true by (symmetry; apply Z.leb_le; lia).
    reflexivity.
  - unfold timestamp_of. apply iso_date_layout_timestamp. assumption.
Qed.

Lemma strptime_reads_padded_timestamps_witness :
  strptime (timestamp_of (mkdatetime (mkdate 2024 2 29) 23 59 59 123000))
  = Ok (mkdatetime (mkdate 2024 2 29) 23 59 59 123000) /\
  iso_date_layout (timestamp_of (mkdatetime (mkdate 2024 2 29) 23 59 59 123000))
  = true.
Proof.
  apply (strptime_reads_padded_timestamps
           (mkdatetime (mkdate 2024 2 29) 23 59 59 123000)).
  - reflexivity.
  - vm_compute. split; discriminate.
  - vm_compute. split; discriminate.
  - vm_compute. split; discriminate.
  - vm_compute. split; discriminate.
Defined.

(** ** The whole run: [main] *)

Lemma inventory_manage (ec2 : list Snapshot -> Snapshot -> res unit)
    (today : date) (l : list Snapshot) (p : Process) :
  exists extra,
    journal (snd (inventory (manage_snapshot_inventory ec2 today l) p))
    = journal p ++ extra /\
    create_calls (snd (inventory (manage_snapshot_inventory ec2 today l) p))
    = create_calls p /\
    match expired_snapshots_of today l with
    | Ok expired =>
        (exists v, fst (inventory (manage_snapshot_inventory ec2 today l) p)
                   = Returned v) /\
        delete_requests (snd (inventory (manage_snapshot_inventory ec2 today l) p))
        = delete_requests p ++ expired
    | Raise e =>
        fst (inventory (manage_snapshot_inventory ec2 today l) p)
        = Failed (Uncaught e) /\
        extra = [] /\
        delete_requests (snd (inventory (manage_snapshot_inventory ec2 today l) p))
        = delete_requests p
    end.
Proof.
  unfold inventory.
  destruct (expired_snapshots_of today l) as [expired | e] eqn:H.
  - rewrite (manage_snapshot_inventory_ok _ _ _ _ _ H).
    destruct expired as [| s r].
    + cbn [fst snd journal create_calls delete_requests syslog_lines delete_calls].
      eexists. repeat split; eauto. rewrite app_nil_r. reflexivity.
    + destruct (delete_snapshots_spec ec2 (s :: r)
                  (mkWorld [] (delete_requests p))) as (extra & E & _).
      rewrite E.
      cbn [fst snd journal create_calls delete_requests syslog_lines delete_calls].
      eexists. repeat split; eauto.
  - rewrite (manage_snapshot_inventory_raise _ _ _ _ _ H).
    cbn [fst snd journal create_calls delete_requests syslog_lines delete_calls map].
    exists []. rewrite app_nil_r. auto.
Qed.

Lemma main_after_creation (conn : Connection) (v : Volume)
    (rest : list (option Volume)) (snap : Snapshot) (all : list Snapshot)
    (now : datetime) (today : date) (p : Process) :
  get_all_volumes conn ["vol-140bd69d"] = Ok (Some v :: rest) ->
  create_snapshot v (new_description now) = Ok snap ->
  get_all_snapshots conn = Ok all ->
  main (Ok conn) now today p
  = let r := inventory (manage_snapshot_inventory (delete conn) today (managed all))
               (mkProcess
                  (journal p ++ [INFO_starting; DEBUG_initiated;
                                 DEBUG_selected (volume_id v); INFO_created snap]
                   ++ map Inventory
                        (DEBUG_snapshots_in_inventory (len (managed all))
                         :: (if len (managed all) <? 7
                             then [ERROR_only_n_snapshots (len (managed all))]
                             else [])))
                  (create_calls p ++ [(volume_id v, new_description now)])
                  (delete_requests p)) in
    (match fst r with Returned _ => Returned tt | Failed f => Failed f end, snd r).
Proof.
  intros Hv Hc Hs. cbv zeta.
  cbv [main rbind rlog start_aws_connection select_volume take_snapshot
       get_snapshot_list_of provider rret debug journal create_calls
       delete_requests].
  rewrite Hv.
  cbv [main rbind rlog start_aws_connection select_volume take_snapshot
       get_snapshot_list_of provider rret debug journal create_calls
       delete_requests].
  rewrite Hc.
  cbv [main rbind rlog start_aws_connection select_volume take_snapshot
       get_snapshot_list_of provider rret debug journal create_calls
       delete_requests].
  rewrite Hs.
  unfold inventory at 1. rewrite get_snapshot_list_eq.
  cbn [journal create_calls delete_requests syslog_lines delete_calls].
  fold (managed all).
  rewrite <- !app_assoc. cbn [app].
  match goal with
  | |- (let (_, _) := ?x in _) = _ => destruct x as [[a | f] q]
  end; reflexivity.
Qed.

Lemma main_no_connection (e : exn) (now : datetime) (today : date) (p : Process) :
  main (Raise e) now today p
  = (Failed UnboundLocalError,
     mkProcess (journal p ++ [INFO_starting; ERROR_failed_to_connect])
               (create_calls p) (delete_requests p)).
Proof.
  cbv [main rbind rlog start_aws_connection rfail journal create_calls
       delete_requests].
  rewrite <- app_assoc. reflexivity.
Qed.

Lemma main_before_creation (conn : Connection) (now : datetime) (today : date)
    (p : Process) :
  main (Ok conn) now today p
  = match get_all_volumes conn ["vol-140bd69d"] with
    | Raise e =>
        (Failed (Uncaught e),
         mkProcess (journal p ++ [INFO_starting; DEBUG_initiated])
                   (create_calls p) (delete_requests p))
    | Ok [] =>
        (Failed IndexError,
         mkProcess (journal p ++ [INFO_starting; DEBUG_initiated])
                   (create_calls p) (delete_requests p))
    | Ok (None :: _) =>
        (Failed (SystemExit 1),
         mkProcess (journal p ++ [INFO_starting; DEBUG_initiated;
                                  ERROR_failed_to_locate "vol-140bd69d";
                                  ERROR_failed_to_create])
                   (create_calls p) (delete_requests p))
    | Ok (Some v :: _) =>
        match create_snapshot v (new_description now) with
        | Raise _ =>
            (Failed (SystemExit 1),
             mkProcess (journal p ++ [INFO_starting; DEBUG_initiated;
                                      DEBUG_selected (volume_id v);
                                      ERROR_failed_to_create])
                       (create_calls p ++ [(volume_id v, new_description now)])
                       (delete_requests p))
        | Ok _ => main (Ok conn) now today p
        end
    end.
Proof.
  destruct (get_all_volumes conn ["vol-140bd69d"]) as [[| [v |] rest] | e] eqn:Hv.
  - cbv [main rbind rlog start_aws_connection select_volume provider rret rfail
         debug journal create_calls delete_requests].
    rewrite Hv. rewrite <- !app_assoc. reflexivity.
  - destruct (create_snapshot v (new_description now)) as [snap | e] eqn:Hc;
      [reflexivity |].
    cbv [main rbind rlog start_aws_connection select_volume take_snapshot
         provider rret rfail debug journal create_calls delete_requests].
    rewrite Hv.
    cbv [main rbind rlog start_aws_connection select_volume take_snapshot
         provider rret rfail debug journal create_calls delete_requests].
    rewrite Hc.
    cbv [rbind rlog rfail journal create_calls delete_requests].
    rewrite <- !app_assoc. reflexivity.
  - cbv [main rbind rlog start_aws_connection select_volume take_snapshot
         provider rret rfail debug journal create_calls delete_requests].
    rewrite Hv.
    cbv [main rbind rlog start_aws_connection select_volume take_snapshot
         provider rret rfail debug journal create_calls delete_requests].
    rewrite <- !app_assoc. reflexivity.
  - cbv [main rbind rlog start_aws_connection select_volume provider rret rfail
         debug journal create_calls delete_requests].
    rewrite Hv. rewrite <- !app_assoc. reflexivity.
Qed.

Lemma main_listing_fails (conn : Connection) (v : Volume)
    (rest : list (option Volume)) (snap : Snapshot) (e : exn)
    (now : datetime) (today : date) (p : Process) :
  get_all_volumes conn ["vol-140bd69d"] = Ok (Some v :: rest) ->
  create_snapshot v (new_description now) = Ok snap ->
  get_all_snapshots conn = Raise e ->
  main (Ok conn) now today p
  = (Failed (Uncaught e),
     mkProcess (journal p ++ [INFO_starting; DEBUG_initiated;
                              DEBUG_selected (volume_id v); INFO_created snap])
               (create_calls p ++ [(volume_id v, new_description now)])
               (delete_requests p)).
Proof.
  intros Hv Hc Hs.
  cbv [main rbind rlog start_aws_connection select_volume take_snapshot
       get_snapshot_list_of provider rret debug journal create_calls
       delete_requests].
  rewrite Hv.
  cbv [main rbind rlog start_aws_connection select_volume take_snapshot
       get_snapshot_list_of provider rret debug journal create_calls
       delete_requests].
  rewrite Hc.
  cbv [main rbind rlog start_aws_connection select_volume take_snapshot
       get_snapshot_list_of provider rret debug journal create_calls
       delete_requests].
  rewrite Hs. rewrite <- !app_assoc. reflexivity.
Qed.

Lemma main_requests (c : res Connection) (now : datetime) (today : date)
    (p : Process) :
  delete_requests (snd (main c now today p)) = delete_requests p \/
  exists conn v rest snap all expired,
    c = Ok conn /\
    get_all_volumes conn ["vol-140bd69d"] = Ok (Some v :: rest) /\
    create_snapshot v (new_description now) = Ok snap /\
    get_all_snapshots conn = Ok all /\
    expired_snapshots_of today (managed all) = Ok expired /\
    delete_requests (snd (main c now today p)) = delete_requests p ++ expired.
Proof.
  destruct c as [conn | e]; [| left; rewrite main_no_connection; reflexivity].
  rewrite main_before_creation.
  destruct (get_all_volumes conn ["vol-140bd69d"]) as [[| [v |] rest] | e] eqn:Hv;
    try (left; reflexivity).
  destruct (create_snapshot v (new_description now)) as [snap | e] eqn:Hc;
    [| left; reflexivity].
  destruct (get_all_snapshots conn) as [all | e] eqn:Hs.
  - rewrite (main_after_creation conn v rest snap all now today p Hv Hc Hs).
    cbv zeta. cbn [snd].
    match goal with
    | |- context [inventory ?m ?q] =>
        destruct (inventory_manage (delete conn) today (managed all) q)
          as (extra & _ & _ & H)
    end.
    destruct (expired_snapshots_of today (managed all)) as [expired | e] eqn:He.
    + right. destruct H as (_ & H). cbn [delete_requests] in H.
      exists conn, v, rest, snap, all, expired. auto 10.
    + left. destruct H as (_ & _ & H). exact H.
  - left. rewrite (main_listing_fails conn v rest snap e now today p Hv Hc Hs).
    reflexivity.
Qed.

(** X14. [main] sends a delete call only in a run in which the connection
    was opened, the volume was found and the new snapshot was created. *)
Theorem no_deletion_without_new_snapshot (c : res Connection) (now : datetime)
    (today : date) (p : Process) :
  delete_requests (snd (main c now today p)) <> delete_requests p ->
  exists conn v rest snap,
    c = Ok conn /\
    get_all_volumes conn ["vol-140bd69d"] = Ok (Some v :: rest) /\
    create_snapshot v (new_description now) = Ok snap.
Proof.
  intros N.
  destruct (main_requests c now today p)
    as [E | (conn & v & rest & snap & all & expired & Hc & Hv & Hs & _)];
    [contradiction |].
  exists conn, v, rest, snap. auto.
Qed.

Lemma no_deletion_without_new_snapshot_witness :
  exists conn v rest snap,
    Ok sample_connection = Ok conn /\
    get_all_volumes conn ["vol-140bd69d"] = Ok (Some v :: rest) /\
    create_snapshot v (new_description sample_now) = Ok snap.
Proof.
  apply (no_deletion_without_new_snapshot (Ok sample_connection) sample_now
           (mkdate 2024 3 15) empty_process).
  vm_compute. discriminate.
Defined.

(** X15. When the volume found is [None] or [create_snapshot] raises, [main]
    logs the creation failure as its last line and exits with status 1
    without sending any delete call. *)
Theorem failed_creation_exits_with_status_1 (conn : Connection)
    (selected : option Volume) (rest : list (option Volume))
    (now : datetime) (today : date) (p : Process) :
  get_all_volumes conn ["vol-140bd69d"] = Ok (selected :: rest) ->
  (selected = None \/
   exists v e, selected = Some v /\
               create_snapshot v (new_description now) = Raise e) ->
  fst (main (Ok conn) now today p) = Failed (SystemExit 1) /\
  delete_requests (snd (main (Ok conn) now today p)) = delete_requests p /\
  exists lines,
    journal (snd (main (Ok conn) now today p))
    = journal p ++ lines ++ [ERROR_failed_to_create].
Proof.
  intros Hv [-> | (v & e & -> & Hc)]; rewrite main_before_creation, Hv.
  - cbn [fst snd journal delete_requests]. repeat split.
    exists [INFO_starting; DEBUG_initiated; ERROR_failed_to_locate "vol-140bd69d"].
    reflexivity.
  - rewrite Hc. cbn [fst snd journal delete_requests]. repeat split.
    exists [INFO_starting; DEBUG_initiated; DEBUG_selected (volume_id v)].
    reflexivity.
Qed.

Lemma failed_creation_exits_with_status_1_witness :
  let conn := mkConnection (fun _ => Ok [None]) (Ok sample_snapshots)
                (fun _ _ => Ok tt) in
  fst (main (Ok conn) sample_now (mkdate 2024 3 15) empty_process)
  = Failed (SystemExit 1) /\
  delete_requests (snd (main (Ok conn) sample_now (mkdate 2024 3 15) empty_process))
  = delete_requests empty_process /\
  exists lines,
    journal (snd (main (Ok conn) sample_now (mkdate 2024 3 15) empty_process))
    = journal empty_process ++ lines ++ [ERROR_failed_to_create].
Proof.
  cbv zeta.
  apply (failed_creation_exits_with_status_1
           (mkConnection (fun _ => Ok [None]) (Ok sample_snapshots)
              (fun _ _ => Ok tt))
           None [] sample_now (mkdate 2024 3 15) empty_process).
  - reflexivity.
  - left. reflexivity.
Defined.

(** X16. When [boto.connect_ec2()] raises, [main] logs the connection
    failure and then fails with [UnboundLocalError], having made no create
    and no delete call. *)
Theorem failed_connection_is_unbound_local_error (e : exn) (now : datetime)
    (today : date) (p : Process) :
  fst (main (Raise e) now today p) = Failed UnboundLocalError /\
  journal (snd (main (Raise e) now today p))
  = journal p ++ [INFO_starting; ERROR_failed_to_connect] /\
  create_calls (snd (main (Raise e) now today p)) = create_calls p /\
  delete_requests (snd (main (Raise e) now today p)) = delete_requests p.
Proof. rewrite main_no_connection. repeat split. Qed.

(** X17. When the provider answers the volume lookup with an empty list,
    [main] fails with [IndexError]; when the lookup raises, the exception is
    not caught; in both cases no create and no delete call is made. *)
Theorem missing_volume_stops_the_run (conn : Connection) (now : datetime)
    (today : date) (p : Process) :
  (get_all_volumes conn ["vol-140bd69d"] = Ok [] ->
     fst (main (Ok conn) now today p) = Failed IndexError) /\
  (forall e, get_all_volumes conn ["vol-140bd69d"] = Raise e ->
     fst (main (Ok conn) now today p) = Failed (Uncaught e)) /\
  ((get_all_volumes conn ["vol-140bd69d"] = Ok [] \/
    exists e, get_all_volumes conn ["vol-140bd69d"] = Raise e) ->
     create_calls (snd (main (Ok conn) now today p)) = create_calls p /\
     delete_requests (snd (main (Ok conn) now today p)) = delete_requests p).
Proof.
  rewrite main_before_creation. split; [| split].
  - intros ->. reflexivity.
  - intros e ->. reflexivity.
  - intros [-> | (e & ->)]; split; reflexivity.
Qed.

Lemma new_description_managed (now : datetime) :
  String.prefix managed_tag (new_description now) = true.
Proof. reflexivity. Qed.

Lemma main_creates (c : res Connection) (now : datetime) (today : date)
    (p : Process) :
  create_calls (snd (main c now today p)) = create_calls p \/
  exists v,
    create_calls (snd (main c now today p))
    = create_calls p ++ [(volume_id v, new_description now)].
Proof.
  destruct c as [conn | e]; [| left; rewrite main_no_connection; reflexivity].
  rewrite main_before_creation.
  destruct (get_all_volumes conn ["vol-140bd69d"]) as [[| [v |] rest] | e] eqn:Hv;
    try (left; reflexivity).
  destruct (create_snapshot v (new_description now)) as [snap | e] eqn:Hc;
    [| right; exists v; reflexivity].
  right. exists v.
  destruct (get_all_snapshots conn) as [all | e] eqn:Hs.
  - rewrite (main_after_creation conn v rest snap all now today p Hv Hc Hs).
    cbv zeta. cbn [snd].
    match goal with
    | |- context [inventory ?m ?q] =>
        destruct (inventory_manage (delete conn) today (managed all) q)
          as (extra & _ & H & _)
    end.
    exact H.
  - rewrite (main_listing_fails conn v rest snap e now today p Hv Hc Hs).
    reflexivity.
Qed.

(** X18. Every [create_snapshot] call of [main] carries a description that
    begins with the managed tag, so that a listed snapshot bearing that
    description is selected by the filter of [get_snapshot_list]. *)
Theorem created_snapshot_is_managed (c : res Connection) (now : datetime)
    (today : date) (p : Process) (volume d : string) :
  In (volume, d) (create_calls (snd (main c now today p))) ->
  In (volume, d) (create_calls p) \/
  (String.prefix managed_tag d = true /\
   forall all_snapshots s,
     In s all_snapshots -> description s = d -> In s (managed all_snapshots)).
Proof.
  intros Hin. destruct (main_creates c now today p) as [E | (v & E)];
    rewrite E in Hin; [left; exact Hin |].
  apply in_app_or in Hin. destruct Hin as [Hin | [Hin | []]];
    [left; exact Hin | right].
  inversion Hin; subst. split; [apply new_description_managed |].
  intros all s Hs Hd. apply filter_In. split; trivial.
  rewrite Hd. apply prefix_re_match; [| apply new_description_managed].
  intros ch E'. apply Ascii.eqb_eq in E'. subst. discriminate.
Qed.

Lemma created_snapshot_is_managed_witness :
  In ("vol-140bd69d", new_description sample_now) (create_calls empty_process) \/
  (String.prefix managed_tag (new_description sample_now) = true /\
   forall all_snapshots s,
     In s all_snapshots -> description s = new_description sample_now ->
     In s (managed all_snapshots)).
Proof.
  apply (created_snapshot_is_managed (Ok sample_connection) sample_now
           (mkdate 2024 3 15) empty_process).
  vm_compute. left. reflexivity.
Defined.

(** X19. Every snapshot for which [main] sends a delete call was listed by
    the provider, has a description matched by the managed pattern, a
    timestamp that parses and is at most the ISO date of the cutoff, and a
    day of month other than the [calendar.mdays] entry of its month. *)
Theorem main_deletes_only_managed_expired (c : res Connection) (now : datetime)
    (today : date) (p : Process) (s : Snapshot) :
  In s (delete_requests (snd (main c now today p))) ->
  In s (delete_requests p) \/
  exists conn all cutoff t,
    c = Ok conn /\ get_all_snapshots conn = Ok all /\ In s all /\
    re_match managed_tag (description s) = true /\
    date_sub_days today 7 = Ok cutoff /\
    strptime (start_time s) = Ok t /\
    (start_time s <=? isoformat cutoff)%string = true /\
    day (dt_date t) <> mdays_at (month (dt_date t)).
Proof.
  intros Hin.
  destruct (main_requests c now today p)
    as [E | (conn & v & rest & snap & all & expired & Hc & Hv & Hk & Hs & He & E)];
    rewrite E in Hin; [left; exact Hin |].
  apply in_app_or in Hin. destruct Hin as [Hin | Hin]; [left; exact Hin | right].
  apply (in_expire_iff _ _ _ s He) in Hin.
  destruct Hin as (Hm & wd & t & D & P & X).
  unfold managed in Hm. apply filter_In in Hm. destruct Hm as (Hall & Hre).
  unfold expire_test in X. apply andb_true_iff in X. destruct X as (X1 & X2).
  apply negb_true_iff, Z.eqb_neq in X2.
  exists conn, all, wd, t. auto 10.
Qed.

Lemma main_deletes_only_managed_expired_witness :
  In (sample_snapshot "snap-old" "2024-03-01 02:00:00" "2024-03-01T02:00:00.000Z") (delete_requests empty_process) \/
  exists conn all cutoff t,
    Ok sample_connection = Ok conn /\ get_all_snapshots conn = Ok all /\
    In (sample_snapshot "snap-old" "2024-03-01 02:00:00" "2024-03-01T02:00:00.000Z") all /\
    re_match managed_tag (description (sample_snapshot "snap-old" "2024-03-01 02:00:00" "2024-03-01T02:00:00.000Z")) = true /\
    date_sub_days (mkdate 2024 3 15) 7 = Ok cutoff /\
    strptime (start_time (sample_snapshot "snap-old" "2024-03-01 02:00:00" "2024-03-01T02:00:00.000Z")) = Ok t /\
    (start_time (sample_snapshot "snap-old" "2024-03-01 02:00:00" "2024-03-01T02:00:00.000Z") <=? isoformat cutoff)%string = true /\
    day (dt_date t) <> mdays_at (month (dt_date t)).
Proof.
  apply (main_deletes_only_managed_expired (Ok sample_connection) sample_now
           (mkdate 2024 3 15) empty_process).
  vm_compute. left. reflexivity.
Defined.

(** X20. When the provider answers every call and the expire set of the
    managed snapshots can be computed, [main] returns, having made one
    create call and one delete call for each member of that expire set, in
    order. *)
Theorem main_prunes_the_managed_inventory (conn : Connection) (v : Volume)
    (rest : list (option Volume)) (snap : Snapshot)
    (all expired : list Snapshot) (now : datetime) (today : date) (p : Process) :
  get_all_volumes conn ["vol-140bd69d"] = Ok (Some v :: rest) ->
  create_snapshot v (new_description now) = Ok snap ->
  get_all_snapshots conn = Ok all ->
  expired_snapshots_of today (managed all) = Ok expired ->
  fst (main (Ok conn) now today p) = Returned tt /\
  create_calls (snd (main (Ok conn) now today p))
  = create_calls p ++ [(volume_id v, new_description now)] /\
  delete_requests (snd (main (Ok conn) now today p))
  = delete_requests p ++ expired.
Proof.
  intros Hv Hc Hs He.
  rewrite (main_after_creation conn v rest snap all now today p Hv Hc Hs).
  cbv zeta. cbn [fst snd].
  match goal with
  | |- context [inventory ?m ?q] =>
      destruct (inventory_manage (delete conn) today (managed all) q)
        as (extra & _ & Hcr & H)
  end.
  rewrite He in H. destruct H as ((r & Hr) & Hd).
  rewrite Hr, Hcr, Hd. auto.
Qed.

Lemma main_prunes_the_managed_inventory_witness :
  fst (main (Ok sample_connection) sample_now (mkdate 2024 3 15) empty_process) = Returned tt /\
  create_calls (snd (main (Ok sample_connection) sample_now (mkdate 2024 3 15) empty_process))
  = create_calls empty_process
    ++ [(volume_id sample_volume, new_description sample_now)] /\
  delete_requests (snd (main (Ok sample_connection) sample_now (mkdate 2024 3 15) empty_process))
  = delete_requests empty_process ++ [sample_snapshot "snap-old" "2024-03-01 02:00:00" "2024-03-01T02:00:00.000Z"].
Proof.
  apply (main_prunes_the_managed_inventory sample_connection sample_volume []
           (mkSnapshot "snap-new" (new_description sample_now)
              "2024-03-15T02:00:00.000Z")
           sample_snapshots).
  - reflexivity.
  - reflexivity.
  - reflexivity.
  - reflexivity.
Defined.

(** X21. When a managed snapshot has a timestamp that [strptime] refuses,
    [main] fails with the uncaught [ValueError] after it has created the new
    snapshot and before any delete call. *)
Theorem unreadable_timestamp_blocks_pruning (conn : Connection) (v : Volume)
    (rest : list (option Volume)) (snap : Snapshot) (all : list Snapshot)
    (cutoff : date) (now : datetime) (today : date) (p : Process) :
  get_all_volumes conn ["vol-140bd69d"] = Ok (Some v :: rest) ->
  create_snapshot v (new_description now) = Ok snap ->
  get_all_snapshots conn = Ok all ->
  date_sub_days today 7 = Ok cutoff ->
  (exists s, In s (managed all) /\ forall t, strptime (start_time s) <> Ok t) ->
  fst (main (Ok conn) now today p) = Failed (Uncaught ValueError) /\
  create_calls (snd (main (Ok conn) now today p))
  = create_calls p ++ [(volume_id v, new_description now)] /\
  delete_requests (snd (main (Ok conn) now today p)) = delete_requests p.
Proof.
  intros Hv Hc Hs D (s & Hin & Bad).
  assert (He : expired_snapshots_of today (managed all) = Raise ValueError).
  { unfold expired_snapshots_of. rewrite D. cbn [bind].
    apply retention_loop_raise.
    destruct (strptime (start_time s)) as [t | e] eqn:E.
    - exfalso. apply (Bad t). reflexivity.
    - exists s, e. auto. }
  rewrite (main_after_creation conn v rest snap all now today p Hv Hc Hs).
  cbv zeta. cbn [fst snd].
  match goal with
  | |- context [inventory ?m ?q] =>
      destruct (inventory_manage (delete conn) today (managed all) q)
        as (extra & _ & Hcr & H)
  end.
  rewrite He in H. destruct H as (Hr & _ & Hd).
  rewrite Hr, Hcr, Hd. auto.
Qed.

Lemma unreadable_timestamp_blocks_pruning_witness :
  let conn := mkConnection (fun _ => Ok [Some sample_volume])
                (Ok [sample_snapshot "snap-bad" "2024-03-01 02:00:00" "2024-03-01 02:00:00"])
                (fun _ _ => Ok tt) in
  fst (main (Ok conn) sample_now (mkdate 2024 3 15) empty_process)
  = Failed (Uncaught ValueError) /\
  create_calls (snd (main (Ok conn) sample_now (mkdate 2024 3 15) empty_process))
  = create_calls empty_process
    ++ [(volume_id sample_volume, new_description sample_now)] /\
  delete_requests (snd (main (Ok conn) sample_now (mkdate 2024 3 15) empty_process))
  = delete_requests empty_process.
Proof.
  cbv zeta.
  apply (unreadable_timestamp_blocks_pruning
           (mkConnection (fun _ => Ok [Some sample_volume])
              (Ok [sample_snapshot "snap-bad" "2024-03-01 02:00:00" "2024-03-01 02:00:00"])
              (fun _ _ => Ok tt))
           sample_volume []
           (mkSnapshot "snap-new" (new_description sample_now)
              "2024-03-15T02:00:00.000Z")
           [sample_snapshot "snap-bad" "2024-03-01 02:00:00" "2024-03-01 02:00:00"]
           (mkdate 2024 3 8)).
  - reflexivity.
  - reflexivity.
  - reflexivity.
  - reflexivity.
  - eexists. split; [left; reflexivity |].
    intros t E. vm_compute in E. discriminate E.
Defined.
